(** * Stock prediction service (backend/app.py): model and verified properties

    The service keeps one SQLite table, [stock_prices], and answers a
    rule-based forecast from the three most recent prices of a ticker.

    - [Py]      the Python values and builtins the program uses: [str] with
                [upper] and [strip], the values a JSON body decodes to with
                [in], indexing and [float], [sum], [len] and [round] on
                binary64 floats, and exceptions.
    - [Sqlite]  the database, with or without the [stock_prices] table, and
                the SQL statements the program executes.
    - [App]     the functions of backend/app.py, in the order of the file.
    - the properties, grouped by operation.

    A [str] is a sequence of code points; a price is a binary64 value
    ([float]) and the arithmetic on prices is the processor's; a Python
    [int] is a [Z].  The case mapping, the whitespace set and the wording of
    the exceptions are those of CPython 3.11 (Unicode 14.0) and of its SQLite
    driver. *)

From Stdlib Require Import ZArith NArith List String Ascii Bool Floats.
From Stdlib Require Import Sorted Permutation Lia.
From Stdlib Require DecimalString HexadecimalString.
Import ListNotations.

Set Warnings "-inexact-float,-register-all".
Local Open Scope Z_scope.

(* ================================================================== *)
(** * Python values and builtins *)
(* ================================================================== *)

Module Py.

(** ** [str] *)

(** A string is the list of its code points; a lone surrogate (D800..DFFF)
    is a code point like any other. *)
Definition str := list N.

(** The [str] written with the ASCII characters of [s]. *)
Definition lit (s : string) : str := map N_of_ascii (list_ascii_of_string s).

Fixpoint str_eqb (a b : str) : bool :=
  match a, b with
  | [], [] => true
  | x :: a', y :: b' => (x =? y)%N && str_eqb a' b'
  | _, _ => false
  end.

(** [sub in s] for two strings: [sub] occurs in [s]. *)
Fixpoint starts_with (sub s : str) : bool :=
  match sub, s with
  | [], _ => true
  | x :: sub', y :: s' => (x =? y)%N && starts_with sub' s'
  | _ :: _, [] => false
  end.

Fixpoint occurs_in (sub s : str) : bool :=
  starts_with sub s ||
  match s with
  | [] => false
  | _ :: s' => occurs_in sub s'
  end.

Definition decimal (n : N) : str :=
  lit (DecimalString.NilZero.string_of_uint (N.to_uint n)).

Definition decimal_Z (z : Z) : str :=
  lit (DecimalString.NilZero.string_of_int (Z.to_int z)).

Definition hexadecimal (n : N) : str :=
  lit (HexadecimalString.NilZero.string_of_uint (N.to_hex_uint n)).

(** ** [str.upper]

    Each code point is replaced by its full uppercase mapping, whatever
    stands around it.  The table lists the code points the mapping changes,
    with what they become (one to three code points). *)

Definition upper_table : list (N * list N) :=
  [ (97, [65]); (98, [66]); (99, [67]); (100, [68]); (101, [69]); (102, [70]);
    (103, [71]); (104, [72]); (105, [73]); (106, [74]); (107, [75]);
    (108, [76]); (109, [77]); (110, [78]); (111, [79]); (112, [80]);
    (113, [81]); (114, [82]); (115, [83]); (116, [84]); (117, [85]);
    (118, [86]); (119, [87]); (120, [88]); (121, [89]); (122, [90]);
    (181, [924]); (223, [83; 83]); (224, [192]); (225, [193]); (226, [194]);
    (227, [195]); (228, [196]); (229, [197]); (230, [198]); (231, [199]);
    (232, [200]); (233, [201]); (234, [202]); (235, [203]); (236, [204]);
    (237, [205]); (238, [206]); (239, [207]); (240, [208]); (241, [209]);
    (242, [210]); (243, [211]); (244, [212]); (245, [213]); (246, [214]);
    (248, [216]); (249, [217]); (250, [218]); (251, [219]); (252, [220]);
    (253, [221]); (254, [222]); (255, [376]); (257, [256]); (259, [258]);
    (261, [260]); (263, [262]); (265, [264]); (267, [266]); (269, [268]);
    (271, [270]); (273, [272]); (275, [274]); (277, [276]); (279, [278]);
    (281, [280]); (283, [282]); (285, [284]); (287, [286]); (289, [288]);
    (291, [290]); (293, [292]); (295, [294]); (297, [296]); (299, [298]);
    (301, [300]); (303, [302]); (305, [73]); (307, [306]); (309, [308]);
    (311, [310]); (314, [313]); (316, [315]); (318, [317]); (320, [319]);
    (322, [321]); (324, [323]); (326, [325]); (328, [327]); (329, [700; 78]);
    (331, [330]); (333, [332]); (335, [334]); (337, [336]); (339, [338]);
    (341, [340]); (343, [342]); (345, [344]); (347, [346]); (349, [348]);
    (351, [350]); (353, [352]); (355, [354]); (357, [356]); (359, [358]);
    (361, [360]); (363, [362]); (365, [364]); (367, [366]); (369, [368]);
    (371, [370]); (373, [372]); (375, [374]); (378, [377]); (380, [379]);
    (382, [381]); (383, [83]); (384, [579]); (387, [386]); (389, [388]);
    (392, [391]); (396, [395]); (402, [401]); (405, [502]); (409, [408]);
    (410, [573]); (414, [544]); (417, [416]); (419, [418]); (421, [420]);
    (424, [423]); (429, [428]); (432, [431]); (436, [435]); (438, [437]);
    (441, [440]); (445, [444]); (447, [503]); (453, [452]); (454, [452]);
    (456, [455]); (457, [455]); (459, [458]); (460, [458]); (462, [461]);
    (464, [463]); (466, [465]); (468, [467]); (470, [469]); (472, [471]);
    (474, [473]); (476, [475]); (477, [398]); (479, [478]); (481, [480]);
    (483, [482]); (485, [484]); (487, [486]); (489, [488]); (491, [490]);
    (493, [492]); (495, [494]); (496, [74; 780]); (498, [497]); (499, [497]);
    (501, [500]); (505, [504]); (507, [506]); (509, [508]); (511, [510]);
    (513, [512]); (515, [514]); (517, [516]); (519, [518]); (521, [520]);
    (523, [522]); (525, [524]); (527, [526]); (529, [528]); (531, [530]);
    (533, [532]); (535, [534]); (537, [536]); (539, [538]); (541, [540]);
    (543, [542]); (547, [546]); (549, [548]); (551, [550]); (553, [552]);
    (555, [554]); (557, [556]); (559, [558]); (561, [560]); (563, [562]);
    (572, [571]); (575, [11390]); (576, [11391]); (578, [577]); (583, [582]);
    (585, [584]); (587, [586]); (589, [588]); (591, [590]); (592, [11375]);
    (593, [11373]); (594, [11376]); (595, [385]); (596, [390]); (598, [393]);
    (599, [394]); (601, [399]); (603, [400]); (604, [42923]); (608, [403]);
    (609, [42924]); (611, [404]); (613, [42893]); (614, [42922]); (616, [407]);
    (617, [406]); (618, [42926]); (619, [11362]); (620, [42925]); (623, [412]);
    (625, [11374]); (626, [413]); (629, [415]); (637, [11364]); (640, [422]);
    (642, [42949]); (643, [425]); (647, [42929]); (648, [430]); (649, [580]);
    (650, [433]); (651, [434]); (652, [581]); (658, [439]); (669, [42930]);
    (670, [42928]); (837, [921]); (881, [880]); (883, [882]); (887, [886]);
    (891, [1021]); (892, [1022]); (893, [1023]); (912, [921; 776; 769]);
    (940, [902]); (941, [904]); (942, [905]); (943, [906]);
    (944, [933; 776; 769]); (945, [913]); (946, [914]); (947, [915]);
    (948, [916]); (949, [917]); (950, [918]); (951, [919]); (952, [920]);
    (953, [921]); (954, [922]); (955, [923]); (956, [924]); (957, [925]);
    (958, [926]); (959, [927]); (960, [928]); (961, [929]); (962, [931]);
    (963, [931]); (964, [932]); (965, [933]); (966, [934]); (967, [935]);
    (968, [936]); (969, [937]); (970, [938]); (971, [939]); (972, [908]);
    (973, [910]); (974, [911]); (976, [914]); (977, [920]); (981, [934]);
    (982, [928]); (983, [975]); (985, [984]); (987, [986]); (989, [988]);
    (991, [990]); (993, [992]); (995, [994]); (997, [996]); (999, [998]);
    (1001, [1000]); (1003, [1002]); (1005, [1004]); (1007, [1006]);
    (1008, [922]); (1009, [929]); (1010, [1017]); (1011, [895]); (1013, [917]);
    (1016, [1015]); (1019, [1018]); (1072, [1040]); (1073, [1041]);
    (1074, [1042]); (1075, [1043]); (1076, [1044]); (1077, [1045]);
    (1078, [1046]); (1079, [1047]); (1080, [1048]); (1081, [1049]);
    (1082, [1050]); (1083, [1051]); (1084, [1052]); (1085, [1053]);
    (1086, [1054]); (1087, [1055]); (1088, [1056]); (1089, [1057]);
    (1090, [1058]); (1091, [1059]); (1092, [1060]); (1093, [1061]);
    (1094, [1062]); (1095, [1063]); (1096, [1064]); (1097, [1065]);
    (1098, [1066]); (1099, [1067]); (1100, [1068]); (1101, [1069]);
    (1102, [1070]); (1103, [1071]); (1104, [1024]); (1105, [1025]);
    (1106, [1026]); (1107, [1027]); (1108, [1028]); (1109, [1029]);
    (1110, [1030]); (1111, [1031]); (1112, [1032]); (1113, [1033]);
    (1114, [1034]); (1115, [1035]); (1116, [1036]); (1117, [1037]);
    (1118, [1038]); (1119, [1039]); (1121, [1120]); (1123, [1122]);
    (1125, [1124]); (1127, [1126]); (1129, [1128]); (1131, [1130]);
    (1133, [1132]); (1135, [1134]); (1137, [1136]); (1139, [1138]);
    (1141, [1140]); (1143, [1142]); (1145, [1144]); (1147, [1146]);
    (1149, [1148]); (1151, [1150]); (1153, [1152]); (1163, [1162]);
    (1165, [1164]); (1167, [1166]); (1169, [1168]); (1171, [1170]);
    (1173, [1172]); (1175, [1174]); (1177, [1176]); (1179, [1178]);
    (1181, [1180]); (1183, [1182]); (1185, [1184]); (1187, [1186]);
    (1189, [1188]); (1191, [1190]); (1193, [1192]); (1195, [1194]);
    (1197, [1196]); (1199, [1198]); (1201, [1200]); (1203, [1202]);
    (1205, [1204]); (1207, [1206]); (1209, [1208]); (1211, [1210]);
    (1213, [1212]); (1215, [1214]); (1218, [1217]); (1220, [1219]);
    (1222, [1221]); (1224, [1223]); (1226, [1225]); (1228, [1227]);
    (1230, [1229]); (1231, [1216]); (1233, [1232]); (1235, [1234]);
    (1237, [1236]); (1239, [1238]); (1241, [1240]); (1243, [1242]);
    (1245, [1244]); (1247, [1246]); (1249, [1248]); (1251, [1250]);
    (1253, [1252]); (1255, [1254]); (1257, [1256]); (1259, [1258]);
    (1261, [1260]); (1263, [1262]); (1265, [1264]); (1267, [1266]);
    (1269, [1268]); (1271, [1270]); (1273, [1272]); (1275, [1274]);
    (1277, [1276]); (1279, [1278]); (1281, [1280]); (1283, [1282]);
    (1285, [1284]); (1287, [1286]); (1289, [1288]); (1291, [1290]);
    (1293, [1292]); (1295, [1294]); (1297, [1296]); (1299, [1298]);
    (1301, [1300]); (1303, [1302]); (1305, [1304]); (1307, [1306]);
    (1309, [1308]); (1311, [1310]); (1313, [1312]); (1315, [1314]);
    (1317, [1316]); (1319, [1318]); (1321, [1320]); (1323, [1322]);
    (1325, [1324]); (1327, [1326]); (1377, [1329]); (1378, [1330]);
    (1379, [1331]); (1380, [1332]); (1381, [1333]); (1382, [1334]);
    (1383, [1335]); (1384, [1336]); (1385, [1337]); (1386, [1338]);
    (1387, [1339]); (1388, [1340]); (1389, [1341]); (1390, [1342]);
    (1391, [1343]); (1392, [1344]); (1393, [1345]); (1394, [1346]);
    (1395, [1347]); (1396, [1348]); (1397, [1349]); (1398, [1350]);
    (1399, [1351]); (1400, [1352]); (1401, [1353]); (1402, [1354]);
    (1403, [1355]); (1404, [1356]); (1405, [1357]); (1406, [1358]);
    (1407, [1359]); (1408, [1360]); (1409, [1361]); (1410, [1362]);
    (1411, [1363]); (1412, [1364]); (1413, [1365]); (1414, [1366]);
    (1415, [1333; 1362]); (4304, [7312]); (4305, [7313]); (4306, [7314]);
    (4307, [7315]); (4308, [7316]); (4309, [7317]); (4310, [7318]);
    (4311, [7319]); (4312, [7320]); (4313, [7321]); (4314, [7322]);
    (4315, [7323]); (4316, [7324]); (4317, [7325]); (4318, [7326]);
    (4319, [7327]); (4320, [7328]); (4321, [7329]); (4322, [7330]);
    (4323, [7331]); (4324, [7332]); (4325, [7333]); (4326, [7334]);
    (4327, [7335]); (4328, [7336]); (4329, [7337]); (4330, [7338]);
    (4331, [7339]); (4332, [7340]); (4333, [7341]); (4334, [7342]);
    (4335, [7343]); (4336, [7344]); (4337, [7345]); (4338, [7346]);
    (4339, [7347]); (4340, [7348]); (4341, [7349]); (4342, [7350]);
    (4343, [7351]); (4344, [7352]); (4345, [7353]); (4346, [7354]);
    (4349, [7357]); (4350, [7358]); (4351, [7359]); (5112, [5104]);
    (5113, [5105]); (5114, [5106]); (5115, [5107]); (5116, [5108]);
    (5117, [5109]); (7296, [1042]); (7297, [1044]); (7298, [1054]);
    (7299, [1057]); (7300, [1058]); (7301, [1058]); (7302, [1066]);
    (7303, [1122]); (7304, [42570]); (7545, [42877]); (7549, [11363]);
    (7566, [42950]); (7681, [7680]); (7683, [7682]); (7685, [7684]);
    (7687, [7686]); (7689, [7688]); (7691, [7690]); (7693, [7692]);
    (7695, [7694]); (7697, [7696]); (7699, [7698]); (7701, [7700]);
    (7703, [7702]); (7705, [7704]); (7707, [7706]); (7709, [7708]);
    (7711, [7710]); (7713, [7712]); (7715, [7714]); (7717, [7716]);
    (7719, [7718]); (7721, [7720]); (7723, [7722]); (7725, [7724]);
    (7727, [7726]); (7729, [7728]); (7731, [7730]); (7733, [7732]);
    (7735, [7734]); (7737, [7736]); (7739, [7738]); (7741, [7740]);
    (7743, [7742]); (7745, [7744]); (7747, [7746]); (7749, [7748]);
    (7751, [7750]); (7753, [7752]); (7755, [7754]); (7757, [7756]);
    (7759, [7758]); (7761, [7760]); (7763, [7762]); (7765, [7764]);
    (7767, [7766]); (7769, [7768]); (7771, [7770]); (7773, [7772]);
    (7775, [7774]); (7777, [7776]); (7779, [7778]); (7781, [7780]);
    (7783, [7782]); (7785, [7784]); (7787, [7786]); (7789, [7788]);
    (7791, [7790]); (7793, [7792]); (7795, [7794]); (7797, [7796]);
    (7799, [7798]); (7801, [7800]); (7803, [7802]); (7805, [7804]);
    (7807, [7806]); (7809, [7808]); (7811, [7810]); (7813, [7812]);
    (7815, [7814]); (7817, [7816]); (7819, [7818]); (7821, [7820]);
    (7823, [7822]); (7825, [7824]); (7827, [7826]); (7829, [7828]);
    (7830, [72; 817]); (7831, [84; 776]); (7832, [87; 778]); (7833, [89; 778]);
    (7834, [65; 702]); (7835, [7776]); (7841, [7840]); (7843, [7842]);
    (7845, [7844]); (7847, [7846]); (7849, [7848]); (7851, [7850]);
    (7853, [7852]); (7855, [7854]); (7857, [7856]); (7859, [7858]);
    (7861, [7860]); (7863, [7862]); (7865, [7864]); (7867, [7866]);
    (7869, [7868]); (7871, [7870]); (7873, [7872]); (7875, [7874]);
    (7877, [7876]); (7879, [7878]); (7881, [7880]); (7883, [7882]);
    (7885, [7884]); (7887, [7886]); (7889, [7888]); (7891, [7890]);
    (7893, [7892]); (7895, [7894]); (7897, [7896]); (7899, [7898]);
    (7901, [7900]); (7903, [7902]); (7905, [7904]); (7907, [7906]);
    (7909, [7908]); (7911, [7910]); (7913, [7912]); (7915, [7914]);
    (7917, [7916]); (7919, [7918]); (7921, [7920]); (7923, [7922]);
    (7925, [7924]); (7927, [7926]); (7929, [7928]); (7931, [7930]);
    (7933, [7932]); (7935, [7934]); (7936, [7944]); (7937, [7945]);
    (7938, [7946]); (7939, [7947]); (7940, [7948]); (7941, [7949]);
    (7942, [7950]); (7943, [7951]); (7952, [7960]); (7953, [7961]);
    (7954, [7962]); (7955, [7963]); (7956, [7964]); (7957, [7965]);
    (7968, [7976]); (7969, [7977]); (7970, [7978]); (7971, [7979]);
    (7972, [7980]); (7973, [7981]); (7974, [7982]); (7975, [7983]);
    (7984, [7992]); (7985, [7993]); (7986, [7994]); (7987, [7995]);
    (7988, [7996]); (7989, [7997]); (7990, [7998]); (7991, [7999]);
    (8000, [8008]); (8001, [8009]); (8002, [8010]); (8003, [8011]);
    (8004, [8012]); (8005, [8013]); (8016, [933; 787]); (8017, [8025]);
    (8018, [933; 787; 768]); (8019, [8027]); (8020, [933; 787; 769]);
    (8021, [8029]); (8022, [933; 787; 834]); (8023, [8031]); (8032, [8040]);
    (8033, [8041]); (8034, [8042]); (8035, [8043]); (8036, [8044]);
    (8037, [8045]); (8038, [8046]); (8039, [8047]); (8048, [8122]);
    (8049, [8123]); (8050, [8136]); (8051, [8137]); (8052, [8138]);
    (8053, [8139]); (8054, [8154]); (8055, [8155]); (8056, [8184]);
    (8057, [8185]); (8058, [8170]); (8059, [8171]); (8060, [8186]);
    (8061, [8187]); (8064, [7944; 921]); (8065, [7945; 921]);
    (8066, [7946; 921]); (8067, [7947; 921]); (8068, [7948; 921]);
    (8069, [7949; 921]); (8070, [7950; 921]); (8071, [7951; 921]);
    (8072, [7944; 921]); (8073, [7945; 921]); (8074, [7946; 921]);
    (8075, [7947; 921]); (8076, [7948; 921]); (8077, [7949; 921]);
    (8078, [7950; 921]); (8079, [7951; 921]); (8080, [7976; 921]);
    (8081, [7977; 921]); (8082, [7978; 921]); (8083, [7979; 921]);
    (8084, [7980; 921]); (8085, [7981; 921]); (8086, [7982; 921]);
    (8087, [7983; 921]); (8088, [7976; 921]); (8089, [7977; 921]);
    (8090, [7978; 921]); (8091, [7979; 921]); (8092, [7980; 921]);
    (8093, [7981; 921]); (8094, [7982; 921]); (8095, [7983; 921]);
    (8096, [8040; 921]); (8097, [8041; 921]); (8098, [8042; 921]);
    (8099, [8043; 921]); (8100, [8044; 921]); (8101, [8045; 921]);
    (8102, [8046; 921]); (8103, [8047; 921]); (8104, [8040; 921]);
    (8105, [8041; 921]); (8106, [8042; 921]); (8107, [8043; 921]);
    (8108, [8044; 921]); (8109, [8045; 921]); (8110, [8046; 921]);
    (8111, [8047; 921]); (8112, [8120]); (8113, [8121]); (8114, [8122; 921]);
    (8115, [913; 921]); (8116, [902; 921]); (8118, [913; 834]);
    (8119, [913; 834; 921]); (8124, [913; 921]); (8126, [921]);
    (8130, [8138; 921]); (8131, [919; 921]); (8132, [905; 921]);
    (8134, [919; 834]); (8135, [919; 834; 921]); (8140, [919; 921]);
    (8144, [8152]); (8145, [8153]); (8146, [921; 776; 768]);
    (8147, [921; 776; 769]); (8150, [921; 834]); (8151, [921; 776; 834]);
    (8160, [8168]); (8161, [8169]); (8162, [933; 776; 768]);
    (8163, [933; 776; 769]); (8164, [929; 787]); (8165, [8172]);
    (8166, [933; 834]); (8167, [933; 776; 834]); (8178, [8186; 921]);
    (8179, [937; 921]); (8180, [911; 921]); (8182, [937; 834]);
    (8183, [937; 834; 921]); (8188, [937; 921]); (8526, [8498]); (8560, [8544]);
    (8561, [8545]); (8562, [8546]); (8563, [8547]); (8564, [8548]);
    (8565, [8549]); (8566, [8550]); (8567, [8551]); (8568, [8552]);
    (8569, [8553]); (8570, [8554]); (8571, [8555]); (8572, [8556]);
    (8573, [8557]); (8574, [8558]); (8575, [8559]); (8580, [8579]);
    (9424, [9398]); (9425, [9399]); (9426, [9400]); (9427, [9401]);
    (9428, [9402]); (9429, [9403]); (9430, [9404]); (9431, [9405]);
    (9432, [9406]); (9433, [9407]); (9434, [9408]); (9435, [9409]);
    (9436, [9410]); (9437, [9411]); (9438, [9412]); (9439, [9413]);
    (9440, [9414]); (9441, [9415]); (9442, [9416]); (9443, [9417]);
    (9444, [9418]); (9445, [9419]); (9446, [9420]); (9447, [9421]);
    (9448, [9422]); (9449, [9423]); (11312, [11264]); (11313, [11265]);
    (11314, [11266]); (11315, [11267]); (11316, [11268]); (11317, [11269]);
    (11318, [11270]); (11319, [11271]); (11320, [11272]); (11321, [11273]);
    (11322, [11274]); (11323, [11275]); (11324, [11276]); (11325, [11277]);
    (11326, [11278]); (11327, [11279]); (11328, [11280]); (11329, [11281]);
    (11330, [11282]); (11331, [11283]); (11332, [11284]); (11333, [11285]);
    (11334, [11286]); (11335, [11287]); (11336, [11288]); (11337, [11289]);
    (11338, [11290]); (11339, [11291]); (11340, [11292]); (11341, [11293]);
    (11342, [11294]); (11343, [11295]); (11344, [11296]); (11345, [11297]);
    (11346, [11298]); (11347, [11299]); (11348, [11300]); (11349, [11301]);
    (11350, [11302]); (11351, [11303]); (11352, [11304]); (11353, [11305]);
    (11354, [11306]); (11355, [11307]); (11356, [11308]); (11357, [11309]);
    (11358, [11310]); (11359, [11311]); (11361, [11360]); (11365, [570]);
    (11366, [574]); (11368, [11367]); (11370, [11369]); (11372, [11371]);
    (11379, [11378]); (11382, [11381]); (11393, [11392]); (11395, [11394]);
    (11397, [11396]); (11399, [11398]); (11401, [11400]); (11403, [11402]);
    (11405, [11404]); (11407, [11406]); (11409, [11408]); (11411, [11410]);
    (11413, [11412]); (11415, [11414]); (11417, [11416]); (11419, [11418]);
    (11421, [11420]); (11423, [11422]); (11425, [11424]); (11427, [11426]);
    (11429, [11428]); (11431, [11430]); (11433, [11432]); (11435, [11434]);
    (11437, [11436]); (11439, [11438]); (11441, [11440]); (11443, [11442]);
    (11445, [11444]); (11447, [11446]); (11449, [11448]); (11451, [11450]);
    (11453, [11452]); (11455, [11454]); (11457, [11456]); (11459, [11458]);
    (11461, [11460]); (11463, [11462]); (11465, [11464]); (11467, [11466]);
    (11469, [11468]); (11471, [11470]); (11473, [11472]); (11475, [11474]);
    (11477, [11476]); (11479, [11478]); (11481, [11480]); (11483, [11482]);
    (11485, [11484]); (11487, [11486]); (11489, [11488]); (11491, [11490]);
    (11500, [11499]); (11502, [11501]); (11507, [11506]); (11520, [4256]);
    (11521, [4257]); (11522, [4258]); (11523, [4259]); (11524, [4260]);
    (11525, [4261]); (11526, [4262]); (11527, [4263]); (11528, [4264]);
    (11529, [4265]); (11530, [4266]); (11531, [4267]); (11532, [4268]);
    (11533, [4269]); (11534, [4270]); (11535, [4271]); (11536, [4272]);
    (11537, [4273]); (11538, [4274]); (11539, [4275]); (11540, [4276]);
    (11541, [4277]); (11542, [4278]); (11543, [4279]); (11544, [4280]);
    (11545, [4281]); (11546, [4282]); (11547, [4283]); (11548, [4284]);
    (11549, [4285]); (11550, [4286]); (11551, [4287]); (11552, [4288]);
    (11553, [4289]); (11554, [4290]); (11555, [4291]); (11556, [4292]);
    (11557, [4293]); (11559, [4295]); (11565, [4301]); (42561, [42560]);
    (42563, [42562]); (42565, [42564]); (42567, [42566]); (42569, [42568]);
    (42571, [42570]); (42573, [42572]); (42575, [42574]); (42577, [42576]);
    (42579, [42578]); (42581, [42580]); (42583, [42582]); (42585, [42584]);
    (42587, [42586]); (42589, [42588]); (42591, [42590]); (42593, [42592]);
    (42595, [42594]); (42597, [42596]); (42599, [42598]); (42601, [42600]);
    (42603, [42602]); (42605, [42604]); (42625, [42624]); (42627, [42626]);
    (42629, [42628]); (42631, [42630]); (42633, [42632]); (42635, [42634]);
    (42637, [42636]); (42639, [42638]); (42641, [42640]); (42643, [42642]);
    (42645, [42644]); (42647, [42646]); (42649, [42648]); (42651, [42650]);
    (42787, [42786]); (42789, [42788]); (42791, [42790]); (42793, [42792]);
    (42795, [42794]); (42797, [42796]); (42799, [42798]); (42803, [42802]);
    (42805, [42804]); (42807, [42806]); (42809, [42808]); (42811, [42810]);
    (42813, [42812]); (42815, [42814]); (42817, [42816]); (42819, [42818]);
    (42821, [42820]); (42823, [42822]); (42825, [42824]); (42827, [42826]);
    (42829, [42828]); (42831, [42830]); (42833, [42832]); (42835, [42834]);
    (42837, [42836]); (42839, [42838]); (42841, [42840]); (42843, [42842]);
    (42845, [42844]); (42847, [42846]); (42849, [42848]); (42851, [42850]);
    (42853, [42852]); (42855, [42854]); (42857, [42856]); (42859, [42858]);
    (42861, [42860]); (42863, [42862]); (42874, [42873]); (42876, [42875]);
    (42879, [42878]); (42881, [42880]); (42883, [42882]); (42885, [42884]);
    (42887, [42886]); (42892, [42891]); (42897, [42896]); (42899, [42898]);
    (42900, [42948]); (42903, [42902]); (42905, [42904]); (42907, [42906]);
    (42909, [42908]); (42911, [42910]); (42913, [42912]); (42915, [42914]);
    (42917, [42916]); (42919, [42918]); (42921, [42920]); (42933, [42932]);
    (42935, [42934]); (42937, [42936]); (42939, [42938]); (42941, [42940]);
    (42943, [42942]); (42945, [42944]); (42947, [42946]); (42952, [42951]);
    (42954, [42953]); (42961, [42960]); (42967, [42966]); (42969, [42968]);
    (42998, [42997]); (43859, [42931]); (43888, [5024]); (43889, [5025]);
    (43890, [5026]); (43891, [5027]); (43892, [5028]); (43893, [5029]);
    (43894, [5030]); (43895, [5031]); (43896, [5032]); (43897, [5033]);
    (43898, [5034]); (43899, [5035]); (43900, [5036]); (43901, [5037]);
    (43902, [5038]); (43903, [5039]); (43904, [5040]); (43905, [5041]);
    (43906, [5042]); (43907, [5043]); (43908, [5044]); (43909, [5045]);
    (43910, [5046]); (43911, [5047]); (43912, [5048]); (43913, [5049]);
    (43914, [5050]); (43915, [5051]); (43916, [5052]); (43917, [5053]);
    (43918, [5054]); (43919, [5055]); (43920, [5056]); (43921, [5057]);
    (43922, [5058]); (43923, [5059]); (43924, [5060]); (43925, [5061]);
    (43926, [5062]); (43927, [5063]); (43928, [5064]); (43929, [5065]);
    (43930, [5066]); (43931, [5067]); (43932, [5068]); (43933, [5069]);
    (43934, [5070]); (43935, [5071]); (43936, [5072]); (43937, [5073]);
    (43938, [5074]); (43939, [5075]); (43940, [5076]); (43941, [5077]);
    (43942, [5078]); (43943, [5079]); (43944, [5080]); (43945, [5081]);
    (43946, [5082]); (43947, [5083]); (43948, [5084]); (43949, [5085]);
    (43950, [5086]); (43951, [5087]); (43952, [5088]); (43953, [5089]);
    (43954, [5090]); (43955, [5091]); (43956, [5092]); (43957, [5093]);
    (43958, [5094]); (43959, [5095]); (43960, [5096]); (43961, [5097]);
    (43962, [5098]); (43963, [5099]); (43964, [5100]); (43965, [5101]);
    (43966, [5102]); (43967, [5103]); (64256, [70; 70]); (64257, [70; 73]);
    (64258, [70; 76]); (64259, [70; 70; 73]); (64260, [70; 70; 76]);
    (64261, [83; 84]); (64262, [83; 84]); (64275, [1348; 1350]);
    (64276, [1348; 1333]); (64277, [1348; 1339]); (64278, [1358; 1350]);
    (64279, [1348; 1341]); (65345, [65313]); (65346, [65314]); (65347, [65315]);
    (65348, [65316]); (65349, [65317]); (65350, [65318]); (65351, [65319]);
    (65352, [65320]); (65353, [65321]); (65354, [65322]); (65355, [65323]);
    (65356, [65324]); (65357, [65325]); (65358, [65326]); (65359, [65327]);
    (65360, [65328]); (65361, [65329]); (65362, [65330]); (65363, [65331]);
    (65364, [65332]); (65365, [65333]); (65366, [65334]); (65367, [65335]);
    (65368, [65336]); (65369, [65337]); (65370, [65338]); (66600, [66560]);
    (66601, [66561]); (66602, [66562]); (66603, [66563]); (66604, [66564]);
    (66605, [66565]); (66606, [66566]); (66607, [66567]); (66608, [66568]);
    (66609, [66569]); (66610, [66570]); (66611, [66571]); (66612, [66572]);
    (66613, [66573]); (66614, [66574]); (66615, [66575]); (66616, [66576]);
    (66617, [66577]); (66618, [66578]); (66619, [66579]); (66620, [66580]);
    (66621, [66581]); (66622, [66582]); (66623, [66583]); (66624, [66584]);
    (66625, [66585]); (66626, [66586]); (66627, [66587]); (66628, [66588]);
    (66629, [66589]); (66630, [66590]); (66631, [66591]); (66632, [66592]);
    (66633, [66593]); (66634, [66594]); (66635, [66595]); (66636, [66596]);
    (66637, [66597]); (66638, [66598]); (66639, [66599]); (66776, [66736]);
    (66777, [66737]); (66778, [66738]); (66779, [66739]); (66780, [66740]);
    (66781, [66741]); (66782, [66742]); (66783, [66743]); (66784, [66744]);
    (66785, [66745]); (66786, [66746]); (66787, [66747]); (66788, [66748]);
    (66789, [66749]); (66790, [66750]); (66791, [66751]); (66792, [66752]);
    (66793, [66753]); (66794, [66754]); (66795, [66755]); (66796, [66756]);
    (66797, [66757]); (66798, [66758]); (66799, [66759]); (66800, [66760]);
    (66801, [66761]); (66802, [66762]); (66803, [66763]); (66804, [66764]);
    (66805, [66765]); (66806, [66766]); (66807, [66767]); (66808, [66768]);
    (66809, [66769]); (66810, [66770]); (66811, [66771]); (66967, [66928]);
    (66968, [66929]); (66969, [66930]); (66970, [66931]); (66971, [66932]);
    (66972, [66933]); (66973, [66934]); (66974, [66935]); (66975, [66936]);
    (66976, [66937]); (66977, [66938]); (66979, [66940]); (66980, [66941]);
    (66981, [66942]); (66982, [66943]); (66983, [66944]); (66984, [66945]);
    (66985, [66946]); (66986, [66947]); (66987, [66948]); (66988, [66949]);
    (66989, [66950]); (66990, [66951]); (66991, [66952]); (66992, [66953]);
    (66993, [66954]); (66995, [66956]); (66996, [66957]); (66997, [66958]);
    (66998, [66959]); (66999, [66960]); (67000, [66961]); (67001, [66962]);
    (67003, [66964]); (67004, [66965]); (68800, [68736]); (68801, [68737]);
    (68802, [68738]); (68803, [68739]); (68804, [68740]); (68805, [68741]);
    (68806, [68742]); (68807, [68743]); (68808, [68744]); (68809, [68745]);
    (68810, [68746]); (68811, [68747]); (68812, [68748]); (68813, [68749]);
    (68814, [68750]); (68815, [68751]); (68816, [68752]); (68817, [68753]);
    (68818, [68754]); (68819, [68755]); (68820, [68756]); (68821, [68757]);
    (68822, [68758]); (68823, [68759]); (68824, [68760]); (68825, [68761]);
    (68826, [68762]); (68827, [68763]); (68828, [68764]); (68829, [68765]);
    (68830, [68766]); (68831, [68767]); (68832, [68768]); (68833, [68769]);
    (68834, [68770]); (68835, [68771]); (68836, [68772]); (68837, [68773]);
    (68838, [68774]); (68839, [68775]); (68840, [68776]); (68841, [68777]);
    (68842, [68778]); (68843, [68779]); (68844, [68780]); (68845, [68781]);
    (68846, [68782]); (68847, [68783]); (68848, [68784]); (68849, [68785]);
    (68850, [68786]); (71872, [71840]); (71873, [71841]); (71874, [71842]);
    (71875, [71843]); (71876, [71844]); (71877, [71845]); (71878, [71846]);
    (71879, [71847]); (71880, [71848]); (71881, [71849]); (71882, [71850]);
    (71883, [71851]); (71884, [71852]); (71885, [71853]); (71886, [71854]);
    (71887, [71855]); (71888, [71856]); (71889, [71857]); (71890, [71858]);
    (71891, [71859]); (71892, [71860]); (71893, [71861]); (71894, [71862]);
    (71895, [71863]); (71896, [71864]); (71897, [71865]); (71898, [71866]);
    (71899, [71867]); (71900, [71868]); (71901, [71869]); (71902, [71870]);
    (71903, [71871]); (93792, [93760]); (93793, [93761]); (93794, [93762]);
    (93795, [93763]); (93796, [93764]); (93797, [93765]); (93798, [93766]);
    (93799, [93767]); (93800, [93768]); (93801, [93769]); (93802, [93770]);
    (93803, [93771]); (93804, [93772]); (93805, [93773]); (93806, [93774]);
    (93807, [93775]); (93808, [93776]); (93809, [93777]); (93810, [93778]);
    (93811, [93779]); (93812, [93780]); (93813, [93781]); (93814, [93782]);
    (93815, [93783]); (93816, [93784]); (93817, [93785]); (93818, [93786]);
    (93819, [93787]); (93820, [93788]); (93821, [93789]); (93822, [93790]);
    (93823, [93791]); (125218, [125184]); (125219, [125185]);
    (125220, [125186]); (125221, [125187]); (125222, [125188]);
    (125223, [125189]); (125224, [125190]); (125225, [125191]);
    (125226, [125192]); (125227, [125193]); (125228, [125194]);
    (125229, [125195]); (125230, [125196]); (125231, [125197]);
    (125232, [125198]); (125233, [125199]); (125234, [125200]);
    (125235, [125201]); (125236, [125202]); (125237, [125203]);
    (125238, [125204]); (125239, [125205]); (125240, [125206]);
    (125241, [125207]); (125242, [125208]); (125243, [125209]);
    (125244, [125210]); (125245, [125211]); (125246, [125212]);
    (125247, [125213]); (125248, [125214]); (125249, [125215]);
    (125250, [125216]); (125251, [125217]) ]%N.

Definition upper_char (c : N) : list N :=
  match find (fun e => (fst e =? c)%N) upper_table with
  | Some (_, u) => u
  | None => [c]
  end.

Definition upper (s : str) : str := flat_map upper_char s.

(** ** [str.strip]: whitespace is removed at both ends. *)

Definition whitespace : list N :=
  [ 9; 10; 11; 12; 13; 28; 29; 30; 31; 32; 133; 160; 5760; 8192; 8193; 8194;
    8195; 8196; 8197; 8198; 8199; 8200; 8201; 8202; 8232; 8233; 8239; 8287;
    12288 ]%N.

Definition is_space (c : N) : bool := existsb (N.eqb c) whitespace.

Fixpoint lstrip (s : str) : str :=
  match s with
  | [] => []
  | c :: s' => if is_space c then lstrip s' else s
  end.

Fixpoint rstrip (s : str) : str :=
  match s with
  | [] => []
  | c :: s' =>
      match rstrip s' with
      | [] => if is_space c then [] else [c]
      | r => c :: r
      end
  end.

Definition strip (s : str) : str := rstrip (lstrip s).

(** ** Exceptions: the class and [str(e)]. *)

Inductive exn_class :=
| TypeError | AttributeError | KeyError | ValueError | OverflowError
| UnicodeEncodeError
| OperationalError | IntegrityError | ProgrammingError   (* sqlite3 *)
| HTTPException.                                         (* werkzeug *)

Record exn := Raised { exn_class_of : exn_class; exn_message : str }.

(** ** The values a JSON body decodes to *)

Inductive value :=
| VNone
| VBool (b : bool)
| VInt (z : Z)
| VFloat (f : float)
| VStr (s : str)
| VList (items : list value)
| VDict (items : list (str * value)).   (* keys pairwise different *)

Definition type_name (v : value) : str :=
  match v with
  | VNone => lit "NoneType"
  | VBool _ => lit "bool"
  | VInt _ => lit "int"
  | VFloat _ => lit "float"
  | VStr _ => lit "str"
  | VList _ => lit "list"
  | VDict _ => lit "dict"
  end.

(** [bool(v)], as [not v] reads it. *)
Definition truthy (v : value) : bool :=
  match v with
  | VNone => false
  | VBool b => b
  | VInt z => negb (z =? 0)
  | VFloat f => negb (PrimFloat.is_zero f)
  | VStr s => negb (str_eqb s [])
  | VList items => match items with [] => false | _ => true end
  | VDict items => match items with [] => false | _ => true end
  end.

Definition lookup (key : str) (items : list (str * value)) : option value :=
  option_map snd (find (fun kv => str_eqb (fst kv) key) items).

(** [key in v] for a string [key]: a key of a dict, an item of a list, a
    substring of a string; the other values are not iterable. *)
Definition contains (v : value) (key : str) : exn + bool :=
  match v with
  | VDict items =>
      inr (match lookup key items with Some _ => true | None => false end)
  | VList items =>
      inr (existsb (fun x => match x with
                             | VStr s => str_eqb s key
                             | _ => false
                             end) items)
  | VStr s => inr (occurs_in key s)
  | _ =>
      inl (Raised TypeError
             (lit "argument of type '" ++ type_name v
                ++ lit "' is not iterable"))
  end.

(** [v[key]] for a string [key].  The program indexes with 'ticker', 'date'
    and 'price' only; the message of the [KeyError] is the key in quotes. *)
Definition getitem (v : value) (key : str) : exn + value :=
  match v with
  | VDict items =>
      match lookup key items with
      | Some x => inr x
      | None => inl (Raised KeyError (lit "'" ++ key ++ lit "'"))
      end
  | VList _ =>
      inl (Raised TypeError
             (lit "list indices must be integers or slices, not str"))
  | VStr _ =>
      inl (Raised TypeError (lit "string indices must be integers, not 'str'"))
  | _ =>
      inl (Raised TypeError
             (lit "'" ++ type_name v ++ lit "' object is not subscriptable"))
  end.

(** [v.upper()] and [v.strip()]: methods of [str] only. *)
Definition no_attribute (v : value) (name : str) : exn :=
  Raised AttributeError
    (lit "'" ++ type_name v ++ lit "' object has no attribute '" ++ name
       ++ lit "'").

Definition call_upper (v : value) : exn + str :=
  match v with
  | VStr s => inr (upper s)
  | _ => inl (no_attribute v (lit "upper"))
  end.

Definition call_strip (v : value) : exn + str :=
  match v with
  | VStr s => inr (strip s)
  | _ => inl (no_attribute v (lit "strip"))
  end.

(** ** [float(v)]

    An [int] is rounded to the nearest float, ties to even, and refused
    when that is beyond the largest float.  What [float] makes of a string
    (a float, or a [ValueError]) is taken as given, like the text SQLite
    makes of a REAL it stores in a TEXT column. *)

Record conversions := {
  float_of_str : str -> exn + float;
  text_of_real : float -> str
}.

Definition float_of_int (z : Z) : exn + float :=
  let f := SF2Prim (binary_normalize prec emax z 0 false) in
  if PrimFloat.is_infinity f
  then inl (Raised OverflowError (lit "int too large to convert to float"))
  else inr f.

Definition float_of (conv : conversions) (v : value) : exn + float :=
  match v with
  | VFloat f => inr f
  | VInt z => float_of_int z
  | VBool b => inr (if b then 1.0 else 0.0)%float
  | VStr s => float_of_str conv s
  | _ =>
      inl (Raised TypeError
             (lit "float() argument must be a string or a real number, not '"
                ++ type_name v ++ lit "'"))
  end.

(** ** [sum] and [len] on a list of floats.

    [sum] starts from 0 and adds the items from left to right.  CPython 3.12
    and later carry a Neumaier compensation term through a sum of floats
    and add it at the end; [summation] says which of the two the
    interpreter runs. *)

Inductive summation := LeftToRight | Compensated.

Definition sum_left_to_right (xs : list float) : float :=
  fold_left PrimFloat.add xs PrimFloat.zero.

(** The integer [len(xs)], converted to a float as the true division
    [float / int] does. *)
Definition float_of_len (xs : list float) : float :=
  PrimFloat.of_uint63 (Uint63.of_Z (Z.of_nat (List.length xs))).

Definition neumaier_step (acc : float * float) (x : float) : float * float :=
  let '(s, c) := acc in
  let t := (s + x)%float in
  if PrimFloat.leb (PrimFloat.abs x) (PrimFloat.abs s)
  then (t, (c + ((s - t) + x))%float)
  else (t, (c + ((x - t) + s))%float).

Definition is_finite (x : float) : bool :=
  negb (PrimFloat.is_nan x) && negb (PrimFloat.is_infinity x).

Definition sum_compensated (xs : list float) : float :=
  let '(s, c) := fold_left neumaier_step xs (PrimFloat.zero, PrimFloat.zero) in
  if negb (PrimFloat.is_zero c) && is_finite c then (s + c)%float else s.

Definition sum (impl : summation) (xs : list float) : float :=
  match impl with
  | LeftToRight => sum_left_to_right xs
  | Compensated => sum_compensated xs
  end.

(** ** [round(x, ndigits)] for a float [x] and [ndigits >= 0].

    CPython rounds the exact binary value of [x] to [ndigits] decimal places,
    a tie going to the even last digit, and returns the float nearest to
    that decimal.  NaN, the infinities and the zeros are returned as they
    are; the sign is kept when the result is zero. *)

(** [num / den] rounded to the nearest integer, ties to even ([den > 0]). *)
Definition round_half_even (num den : Z) : Z :=
  let q := num / den in
  let r := num mod den in
  match 2 * r ?= den with
  | Lt => q
  | Gt => q + 1
  | Eq => if Z.even q then q else q + 1
  end.

(** The integer nearest to [m * 2^e * 10^ndigits]. *)
Definition scaled_round (m : positive) (e : Z) (ndigits : nat) : Z :=
  let s := 10 ^ Z.of_nat ndigits in
  if 0 <=? e then Zpos m * 2 ^ e * s
  else round_half_even (Zpos m * s) (2 ^ (- e)).

Definition round (x : float) (ndigits : nat) : float :=
  match Prim2SF x with
  | S754_finite s m e =>
      match scaled_round m e ndigits with
      | Zpos n =>
          SF2Prim (SFdiv prec emax (S754_finite s n 0)
                     (S754_finite false (Z.to_pos (10 ^ Z.of_nat ndigits)) 0))
      | _ => if s then PrimFloat.neg_zero else PrimFloat.zero
      end
  | _ => x
  end.

End Py.

(* ================================================================== *)
(** * The database *)
(* ================================================================== *)

Module Sqlite.
Import Py.

(** A row of [stock_prices (id, ticker TEXT NOT NULL, date TEXT NOT NULL,
    price REAL NOT NULL, UNIQUE(ticker, date))].  The surrogate [id] is left
    out: no statement of the program reads it or orders by it. *)
Record row := mkRow { ticker : str; date : str; price : float }.

(** The table, in insertion order. *)
Definition table := list row.

(** The database file: [None] while it has no [stock_prices] table. *)
Definition database := option table.

Definition rows_of (db : database) : table :=
  match db with
  | Some rows => rows
  | None => []
  end.

Definition same_key (t d : str) (r : row) : bool :=
  str_eqb (ticker r) t && str_eqb (date r) d.

(** A database computation: a result or an exception, and the database
    after. *)
Definition DB (A : Type) : Type := database -> (exn + A) * database.

Definition ret {A} (a : A) : DB A := fun db => (inr a, db).
Definition raise {A} (e : exn) : DB A := fun db => (inl e, db).
Definition bind {A B} (m : DB A) (k : A -> DB B) : DB B :=
  fun db =>
    match m db with
    | (inl e, db') => (inl e, db')
    | (inr a, db') => k a db'
    end.
(** [try: m  except Exception as e: h e] *)
Definition try_except {A} (m : DB A) (h : exn -> DB A) : DB A :=
  fun db =>
    match m db with
    | (inl e, db') => h e db'
    | (inr a, db') => (inr a, db')
    end.
(** An evaluation that does not touch the database. *)
Definition eval {A} (x : exn + A) : DB A :=
  fun db => (x, db).

Notation "x <- m ;; k" := (bind m (fun x => k))
  (at level 61, m at next level, right associativity).
Notation "m ;;; k" := (bind m (fun _ => k))
  (at level 61, right associativity).

(** *** Preparing a statement on [stock_prices] *)

Definition no_such_table : exn :=
  Raised OperationalError (lit "no such table: stock_prices").

(** The rows of the table, when there is one. *)
Definition prepare : DB table :=
  fun db =>
    match db with
    | Some rows => (inr rows, db)
    | None => (inl no_such_table, db)
    end.

Definition write (rows : table) : DB unit :=
  fun _ => (inr tt, Some rows).

(** *** Binding the parameters, in their order *)

Definition int_too_large : exn :=
  Raised OverflowError (lit "Python int too large to convert to SQLite INTEGER").

(** An [int] parameter is bound as a signed 64-bit INTEGER. *)
Definition bind_int (n : Z) : exn + Z :=
  if (- 2 ^ 63 <=? n) && (n <? 2 ^ 63) then inr n else inl int_too_large.

Definition is_surrogate (c : N) : bool := (55296 <=? c)%N && (c <=? 57343)%N.

(** A [str] parameter is bound as its UTF-8 text, which a string with a
    lone surrogate does not have. *)
Definition encodable (s : str) : bool :=
  forallb (fun c => negb (is_surrogate c)) s.

(** The first run of surrogates of [s], from position [i] on: where it
    starts, how long it is, and its first code point. *)
Fixpoint surrogate_run (s : str) : nat :=
  match s with
  | c :: s' => if is_surrogate c then S (surrogate_run s') else 0%nat
  | [] => 0%nat
  end.

Fixpoint first_surrogates (s : str) (i : N) : option (N * nat * N) :=
  match s with
  | [] => None
  | c :: s' =>
      if is_surrogate c then Some (i, surrogate_run s, c)
      else first_surrogates s' (i + 1)%N
  end.

Definition surrogates_not_allowed (s : str) : exn :=
  Raised UnicodeEncodeError
    match first_surrogates s 0 with
    | Some (i, 1%nat, c) =>
        lit "'utf-8' codec can't encode character '\u" ++ hexadecimal c
          ++ lit "' in position " ++ decimal i
          ++ lit ": surrogates not allowed"
    | Some (i, n, _) =>
        lit "'utf-8' codec can't encode characters in position " ++ decimal i
          ++ lit "-" ++ decimal (i + N.of_nat n - 1)
          ++ lit ": surrogates not allowed"
    | None => []
    end.

Definition bind_text (s : str) : exn + str :=
  if encodable s then inr s else inl (surrogates_not_allowed s).

(** A [float] parameter stored in a [REAL NOT NULL] column: NaN is bound as
    NULL, and a negative zero is stored as 0. *)
Definition stored_real (p : float) : float :=
  if PrimFloat.is_zero p then PrimFloat.zero else p.

Definition bind_real (p : float) : option float :=
  if PrimFloat.is_nan p then None else Some (stored_real p).

(** A value bound to the TEXT column at [position]: the text it is stored
    as, [None] for NULL.  A number is stored as its text. *)
Definition bind_as_text (conv : conversions) (position : N) (v : value)
  : exn + option str :=
  match v with
  | VNone => inr None
  | VStr s => match bind_text s with inr s' => inr (Some s') | inl e => inl e end
  | VBool b => inr (Some (lit (if b then "1" else "0")))
  | VInt z =>
      match bind_int z with
      | inr z' => inr (Some (decimal_Z z'))
      | inl e => inl e
      end
  | VFloat f =>
      inr (if PrimFloat.is_nan f then None else Some (text_of_real conv f))
  | VList _ | VDict _ =>
      inl (Raised ProgrammingError
             (lit "Error binding parameter " ++ decimal position
                ++ lit ": type '" ++ type_name v ++ lit "' is not supported"))
  end.

Definition not_null (column : string) : exn :=
  Raised IntegrityError
    (lit "NOT NULL constraint failed: stock_prices." ++ lit column).

(** *** [WHERE ticker = ? ORDER BY date DESC LIMIT ?] *)

Definition where_ticker (t : str) (rows : table) : list row :=
  filter (fun r => str_eqb (ticker r) t) rows.

(** Text compares bytewise, which for UTF-8 is code point by code point. *)
Fixpoint compare (a b : str) : comparison :=
  match a, b with
  | [], [] => Eq
  | [], _ :: _ => Lt
  | _ :: _, [] => Gt
  | x :: a', y :: b' =>
      match (x ?= y)%N with
      | Eq => compare a' b'
      | c => c
      end
  end.

Definition ltb (a b : str) : bool :=
  match compare a b with Lt => true | _ => false end.

Definition leb (a b : str) : bool :=
  match compare a b with Gt => false | _ => true end.

(** [insert_desc r l] puts [r] in front of the first row whose date is not
    after the date of [r]. *)
Fixpoint insert_desc (r : row) (l : list row) : list row :=
  match l with
  | [] => [r]
  | x :: l' =>
      if leb (date x) (date r) then r :: l else x :: insert_desc r l'
  end.

Definition order_by_date_desc (l : list row) : list row :=
  fold_right insert_desc [] l.

(** A negative LIMIT puts no bound on the number of rows. *)
Definition limit {A} (n : Z) (l : list A) : list A :=
  if n <? 0 then l else firstn (Z.to_nat n) l.

Definition select_rows (t : str) (n : Z) : DB (list row) :=
  rows <- prepare ;;
  t' <- eval (bind_text t) ;;
  n' <- eval (bind_int n) ;;
  ret (limit n' (order_by_date_desc (where_ticker t' rows))).

(** [SELECT price FROM stock_prices WHERE ticker = ? ORDER BY date DESC
    LIMIT ?] *)
Definition select_price (t : str) (n : Z) : DB (list float) :=
  rows <- select_rows t n ;; ret (map price rows).

(** [SELECT date, price FROM stock_prices WHERE ticker = ? ORDER BY date
    DESC LIMIT ?] *)
Definition select_date_price (t : str) (n : Z) : DB (list (str * float)) :=
  rows <- select_rows t n ;; ret (map (fun r => (date r, price r)) rows).

(** *** [SELECT DISTINCT ticker FROM stock_prices ORDER BY ticker] *)

(** [insert_distinct t l] puts [t] at its place in the ascending list [l],
    unless it is there already. *)
Fixpoint insert_distinct (t : str) (l : list str) : list str :=
  match l with
  | [] => [t]
  | x :: l' =>
      match compare t x with
      | Lt => t :: l
      | Eq => l
      | Gt => x :: insert_distinct t l'
      end
  end.

Definition select_distinct_ticker : DB (list str) :=
  rows <- prepare ;;
  ret (fold_right insert_distinct [] (map ticker rows)).

(** *** [INSERT OR IGNORE] and [INSERT OR REPLACE] *)

(** [INSERT OR IGNORE INTO stock_prices (ticker, date, price) VALUES (?, ?,
    ?)] with two strings and a float: the row is skipped when a constraint
    refuses it. *)
Definition insert_or_ignore (t d : str) (p : float) : DB unit :=
  rows <- prepare ;;
  t' <- eval (bind_text t) ;;
  d' <- eval (bind_text d) ;;
  match bind_real p with
  | None => ret tt
  | Some p' =>
      if existsb (same_key t' d') rows then ret tt
      else write (rows ++ [mkRow t' d' p'])
  end.

(** [INSERT OR REPLACE INTO stock_prices (ticker, date, price) VALUES (?, ?,
    ?)] with a string, any value and a float: a NULL date or price aborts
    the statement; a row with the same (ticker, date) is deleted before the
    insert. *)
Definition insert_or_replace (conv : conversions) (t : str) (d : value)
    (p : float) : DB unit :=
  rows <- prepare ;;
  t' <- eval (bind_text t) ;;
  d' <- eval (bind_as_text conv 2 d) ;;
  match d', bind_real p with
  | None, _ => raise (not_null "date")
  | Some _, None => raise (not_null "price")
  | Some d'', Some p' =>
      write (filter (fun r => negb (same_key t' d'' r)) rows
               ++ [mkRow t' d'' p'])
  end.

(** The price stored under a key, if any.  A string that is not encodable
    names no stored text. *)
Definition price_at (t d : str) (db : database) : option float :=
  if encodable t && encodable d
  then option_map price (find (same_key t d) (rows_of db))
  else None.

(** The rows stored for a ticker. *)
Definition observations (t : str) (db : database) : list row :=
  if encodable t then where_ticker t (rows_of db) else [].

End Sqlite.

(* ================================================================== *)
(** * backend/app.py *)
(* ================================================================== *)

Module App.
Import Py Sqlite.

(** ** [init_db] *)

Definition sample_data : list (str * str * float) :=
  [ (lit "AAPL", lit "2024-10-01", 150.25%float);
    (lit "AAPL", lit "2024-10-02", 152.30%float);
    (lit "AAPL", lit "2024-10-03", 148.75%float);
    (lit "AAPL", lit "2024-10-04", 151.20%float);
    (lit "GOOGL", lit "2024-10-01", 2750.50%float);
    (lit "GOOGL", lit "2024-10-02", 2780.25%float);
    (lit "GOOGL", lit "2024-10-03", 2765.75%float);
    (lit "GOOGL", lit "2024-10-04", 2790.30%float);
    (lit "TSLA", lit "2024-10-01", 245.80%float);
    (lit "TSLA", lit "2024-10-02", 248.90%float);
    (lit "TSLA", lit "2024-10-03", 242.15%float);
    (lit "TSLA", lit "2024-10-04", 250.45%float) ].

(** [CREATE TABLE IF NOT EXISTS stock_prices (...)] *)
Definition create_table_if_not_exists : DB unit :=
  fun db => (inr tt, Some (rows_of db)).

(** [for x in xs: body x] *)
Fixpoint for_each {A} (xs : list A) (body : A -> DB unit) : DB unit :=
  match xs with
  | [] => ret tt
  | x :: xs' => body x ;;; for_each xs' body
  end.

Definition init_db : DB unit :=
  create_table_if_not_exists ;;;
  for_each sample_data (fun '(ticker, date, price) =>
    insert_or_ignore ticker date price).

(** The store after [init_db] on a new database. *)
Definition seeded : database := snd (init_db None).

(** ** [get_historical_prices(ticker, days=3)]

    The one caller, [predict_stock_price], passes [days = 3]. *)

Definition get_historical_prices (ticker : str) (days : Z) : DB (list float) :=
  select_price (upper ticker) days.

(** ** [calculate_moving_average(prices)] and [predict_stock_price(ticker)] *)

(** The two dictionaries the function returns: the error one carries
    ['prediction': None]. *)
Inductive prediction_result :=
| PredictionError (error ticker : str)
| Prediction (ticker : str) (prediction : float)
    (historical_prices : list float) (moving_average : float)
    (method confidence : str).

Definition result_ticker (r : prediction_result) : str :=
  match r with
  | PredictionError _ t => t
  | Prediction t _ _ _ _ _ => t
  end.

Definition result_prediction (r : prediction_result) : option float :=
  match r with
  | PredictionError _ _ => None
  | Prediction _ p _ _ _ _ => Some p
  end.

Definition result_error (r : prediction_result) : option str :=
  match r with
  | PredictionError e _ => Some e
  | Prediction _ _ _ _ _ _ => None
  end.


Definition result_historical_prices (r : prediction_result) : option (list float) :=
  match r with
  | PredictionError _ _ => None
  | Prediction _ _ h _ _ _ => Some h
  end.

Definition insufficient_data (ticker : str) : prediction_result :=
  PredictionError
    (lit "Insufficient data for " ++ ticker
       ++ lit ". Need at least 3 days of historical data.")
    ticker.

Section Interpreter.

(** The float summation of the interpreter the service runs on. *)
Variable impl : Py.summation.

Definition calculate_moving_average (prices : list float) : float :=
  match prices with
  | [] => 0.0%float
  | _ => (Py.sum impl prices / Py.float_of_len prices)%float
  end.

Definition trend_factor : float := 0.1%float.

(** [historical_prices[0] - historical_prices[1]] under
    [len(historical_prices) >= 2] is the match on the first two prices. *)
Definition predict_stock_price (ticker : str) : DB prediction_result :=
  try_except
    (historical_prices <- get_historical_prices ticker 3 ;;
     if (List.length historical_prices <? 3)%nat then
       ret (insufficient_data ticker)
     else
       let moving_avg := calculate_moving_average historical_prices in
       let predicted_price :=
         match historical_prices with
         | p0 :: p1 :: _ =>
             let recent_trend := (p0 - p1)%float in
             (moving_avg + recent_trend * trend_factor)%float
         | _ => moving_avg
         end in
       ret (Prediction (upper ticker)
              (Py.round predicted_price 2)
              historical_prices
              (Py.round moving_avg 2)
              (lit "Moving Average (3-day) with Trend Adjustment")
              (lit "Medium (Rule-based prediction)")))
    (fun e =>
       ret (PredictionError
              (lit "Error predicting price for " ++ ticker ++ lit ": "
                 ++ exn_message e)
              ticker)).

(** ** [predict()], route [/predict]

    [body] is what [request.get_json()] does: the decoded body, or the
    exception it raises. *)

Inductive predict_response :=
| PredictOk (result : prediction_result)            (* status 200 *)
| PredictBadRequest (error : str)                   (* status 400 *)
| PredictNotFound (result : prediction_result)      (* status 404 *)
| PredictInternalError (error : str).               (* status 500 *)


Definition predict (body : exn + value) : DB predict_response :=
  try_except
    (data <- eval body ;;
     has_ticker <- (if truthy data then eval (contains data (lit "ticker"))
                    else ret false) ;;
     if negb has_ticker then
       ret (PredictBadRequest (lit "Missing ticker symbol"))
     else
       field <- eval (getitem data (lit "ticker")) ;;
       stripped <- eval (call_strip field) ;;
       let ticker := upper stripped in
       if str_eqb ticker [] then
         ret (PredictBadRequest (lit "Invalid ticker symbol"))
       else
         result <- predict_stock_price ticker ;;
         match result_error result with
         | Some _ => ret (PredictNotFound result)     (* 'error' in result *)
         | None => ret (PredictOk result)
         end)
    (fun e =>
       ret (PredictInternalError (lit "Internal server error: " ++ exn_message e))).

End Interpreter.

(** ** [get_historical_data(ticker)], route [/historical/<ticker>] *)

Inductive historical_response :=
| Historical (ticker : str) (historical_data : list (str * float))
    (count : nat)
| HistoricalError (error : str).      (* status 500 *)

(** [days_arg] is the [days] query parameter read as an int, [None] when it
    is missing or is not an int. *)
Definition get_historical_data (ticker : str) (days_arg : option Z)
  : DB historical_response :=
  try_except
    (let days := match days_arg with Some d => d | None => 10 end in
     data <- select_date_price (upper ticker) days ;;
     ret (Historical (upper ticker) data (List.length data)))
    (fun e =>
       ret (HistoricalError
              (lit "Error fetching historical data: " ++ exn_message e))).

(** ** [add_stock_price()], route [/add_price]

    [body] is what [request.get_json()] does.  The three parameters of the
    statement are evaluated from left to right before it is executed. *)

Inductive add_response :=
| Added (message : str)               (* status 200 *)
| AddBadRequest (error : str)         (* status 400 *)
| AddError (error : str).             (* status 500 *)

(** [all(field in data for field in fields)]: the first [False] ends it. *)
Fixpoint all_in (data : value) (fields : list str) : exn + bool :=
  match fields with
  | [] => inr true
  | field :: fields' =>
      match contains data field with
      | inl e => inl e
      | inr false => inr false
      | inr true => all_in data fields'
      end
  end.

Definition add_stock_price (conv : conversions) (body : exn + value)
  : DB add_response :=
  try_except
    (data <- eval body ;;
     let required_fields := [lit "ticker"; lit "date"; lit "price"] in
     complete <- eval (all_in data required_fields) ;;
     if negb complete then
       ret (AddBadRequest (lit "Missing required fields: ticker, date, price"))
     else
       ticker_field <- eval (getitem data (lit "ticker")) ;;
       ticker <- eval (call_upper ticker_field) ;;
       date <- eval (getitem data (lit "date")) ;;
       price_field <- eval (getitem data (lit "price")) ;;
       price <- eval (float_of conv price_field) ;;
       insert_or_replace conv ticker date price ;;;
       ret (Added (lit "Stock price added successfully")))
    (fun e => ret (AddError (lit "Error adding stock price: " ++ exn_message e))).

(** The body [{"ticker": ticker, "date": date, "price": price}] with two
    strings and a float. *)
Definition price_request (ticker date : str) (price : float) : exn + value :=
  inr (VDict [ (lit "ticker", VStr ticker); (lit "date", VStr date);
               (lit "price", VFloat price) ]).

(** ** [get_available_tickers()], route [/tickers] *)

Inductive tickers_response :=
| Tickers (tickers : list str) (count : nat)
| TickersError (error : str).         (* status 500 *)

Definition get_available_tickers : DB tickers_response :=
  try_except
    (tickers <- select_distinct_ticker ;;
     ret (Tickers tickers (List.length tickers)))
    (fun e => ret (TickersError (lit "Error fetching tickers: " ++ exn_message e))).

End App.

(* ================================================================== *)
(** * Properties *)
(* ================================================================== *)

Import Py Sqlite App.

(** ** Notions the properties are stated with *)

(** [a] is at least as recent as [b]. *)
Definition date_desc (a b : row) : Prop := leb (date b) (date a) = true.

(** The rows a ticker's query ranges over, most recent first. *)
Definition recent_rows (t : str) (db : database) : list row :=
  order_by_date_desc (where_ticker t (rows_of db)).

Definition date_price (r : row) : str * float := (date r, price r).

(** The exception a statement with the text parameter [t] raises before it
    looks at a row: the table is missing, or [t] has no UTF-8 text. *)
Definition query_failure (t : str) (db : database) : option exn :=
  match db with
  | None => Some no_such_table
  | Some _ => if encodable t then None else Some (surrogates_not_allowed t)
  end.

(** The dictionary [predict_stock_price] builds from the prices it read. *)
Definition prediction_of (impl : Py.summation) (ticker : str)
    (historical_prices : list float) : prediction_result :=
  if (List.length historical_prices <? 3)%nat then insufficient_data ticker
  else
    let moving_avg := calculate_moving_average impl historical_prices in
    Prediction (upper ticker)
      (Py.round
         match historical_prices with
         | p0 :: p1 :: _ => (moving_avg + (p0 - p1) * trend_factor)%float
         | _ => moving_avg
         end 2)
      historical_prices
      (Py.round moving_avg 2)
      (lit "Moving Average (3-day) with Trend Adjustment")
      (lit "Medium (Rule-based prediction)").

(** The other error dictionary of [predict_stock_price]. *)
Definition prediction_failed (ticker : str) (e : exn) : prediction_result :=
  PredictionError
    (lit "Error predicting price for " ++ ticker ++ lit ": " ++ exn_message e)
    ticker.

(** Any number of [predict_stock_price] calls, one after the other. *)
Fixpoint predict_each (impl : Py.summation) (tickers : list str)
  : DB (list prediction_result) :=
  match tickers with
  | [] => ret []
  | t :: ts =>
      r <- predict_stock_price impl t ;;
      rs <- predict_each impl ts ;;
      ret (r :: rs)
  end.

(** The key of a row, and the two halves of the store invariant. *)
Definition key (r : row) : str * str := (ticker r, date r).

Definition unique_keys (rows : table) : Prop := NoDup (map key rows).

Definition upper_case_tickers (rows : table) : Prop :=
  Forall (fun r => upper (ticker r) = ticker r) rows.

Definition store_invariant (db : database) : Prop :=
  unique_keys (rows_of db) /\ upper_case_tickers (rows_of db).

(** The stores the program can produce: a new database, then any sequence
    of [init_db] runs and [add_stock_price] requests. *)
Inductive reachable : database -> Prop :=
| reach_new : reachable None
| reach_init_db db : reachable db -> reachable (snd (init_db db))
| reach_add_stock_price db conv body :
    reachable db -> reachable (snd (add_stock_price conv body db)).

(** The fields a request to [add_stock_price] names, when evaluating them
    raises nothing: [data['ticker'].upper()], the text [data['date']] is
    stored as, and [float(data['price'])]. *)
Definition request_ticker (body : exn + value) : option str :=
  match body with
  | inr data =>
      match getitem data (lit "ticker") with
      | inr field =>
          match call_upper field with
          | inr t => Some t
          | inl _ => None
          end
      | inl _ => None
      end
  | inl _ => None
  end.

Definition request_date (conv : conversions) (body : exn + value)
  : option str :=
  match body with
  | inr data =>
      match getitem data (lit "date") with
      | inr field =>
          match bind_as_text conv 2 field with
          | inr (Some d) => Some d
          | _ => None
          end
      | inl _ => None
      end
  | inl _ => None
  end.

Definition request_price (conv : conversions) (body : exn + value)
  : option float :=
  match body with
  | inr data =>
      match getitem data (lit "price") with
      | inr field =>
          match float_of conv field with
          | inr p => Some p
          | inl _ => None
          end
      | inl _ => None
      end
  | inl _ => None
  end.

Definition request_key (conv : conversions) (body : exn + value)
  : option (str * str) :=
  match request_ticker body, request_date conv body with
  | Some t, Some d => Some (t, d)
  | _, _ => None
  end.

(** The body [{"ticker": ticker}] of a request to [predict]. *)
Definition ticker_request (ticker : str) : exn + value :=
  inr (VDict [ (lit "ticker", VStr ticker) ]).

(** Conversions that are never called on a body of strings and floats. *)
Definition no_conversions : conversions :=
  {| float_of_str := fun _ => inl (Raised ValueError []);
     text_of_real := fun _ => [] |}.

(** ** Text *)

Lemma str_eqb_eq (a b : str) : str_eqb a b = true <-> a = b.
Proof.
  revert b. induction a as [|x a IH]; intros [|y b]; simpl;
    try (split; [discriminate | congruence]); [tauto|].
  rewrite andb_true_iff, N.eqb_eq, IH.
  split; [intros [-> ->]; reflexivity | intros [= -> ->]; auto].
Qed.

Lemma str_eqb_refl (a : str) : str_eqb a a = true.
Proof. now apply str_eqb_eq. Qed.

Lemma str_eqb_neq (a b : str) : str_eqb a b = false <-> a <> b.
Proof.
  destruct (str_eqb a b) eqn:H.
  - apply str_eqb_eq in H. split; [discriminate | congruence].
  - split; [|reflexivity]. intros _ Heq. apply str_eqb_eq in Heq. congruence.
Qed.

(** *** The case mapping *)

Lemma upper_table_closed :
  forallb (fun e => str_eqb (flat_map upper_char (snd e)) (snd e)) upper_table
  = true.
Proof. vm_compute. reflexivity. Qed.

Lemma upper_table_no_surrogate :
  forallb (fun e => negb (is_surrogate (fst e)) && encodable (snd e))
    upper_table = true.
Proof. vm_compute. reflexivity. Qed.

Lemma upper_table_no_space :
  forallb (fun e => negb (is_space (fst e))
                    && forallb (fun c => negb (is_space c)) (snd e)
                    && match snd e with [] => false | _ => true end)
    upper_table = true.
Proof. vm_compute. reflexivity. Qed.

Lemma upper_char_cases (c : N) :
  upper_char c = [c] \/ exists c', In (c', upper_char c) upper_table /\ c' = c.
Proof.
  unfold upper_char.
  destruct (find (fun e => (fst e =? c)%N) upper_table) as [[c' u]|] eqn:Hf.
  - right. apply find_some in Hf as [Hin Hc]. simpl in Hc.
    apply N.eqb_eq in Hc. exists c'. now split.
  - now left.
Qed.

Lemma upper_char_unlisted (c : N) :
  find (fun e => (fst e =? c)%N) upper_table = None -> upper_char c = [c].
Proof. unfold upper_char. now intros ->. Qed.

Lemma upper_char_idempotent (c : N) :
  flat_map upper_char (upper_char c) = upper_char c.
Proof.
  unfold upper_char at 2 3.
  destruct (find (fun e => (fst e =? c)%N) upper_table) as [[c' u]|] eqn:Hf.
  - apply find_some in Hf as [Hin _].
    pose proof (proj1 (forallb_forall _ _) upper_table_closed _ Hin) as H.
    now apply str_eqb_eq in H.
  - simpl. rewrite app_nil_r. now apply upper_char_unlisted.
Qed.

Lemma upper_app (a b : str) : upper (a ++ b) = upper a ++ upper b.
Proof. apply flat_map_app. Qed.

Lemma upper_idempotent (s : str) : upper (upper s) = upper s.
Proof.
  induction s as [|c s IH]; simpl; [reflexivity|].
  rewrite upper_app, IH. f_equal. apply upper_char_idempotent.
Qed.

Lemma encodable_app (a b : str) :
  encodable (a ++ b) = encodable a && encodable b.
Proof. apply forallb_app. Qed.

Lemma upper_char_encodable (c : N) :
  encodable (upper_char c) = negb (is_surrogate c).
Proof.
  unfold upper_char.
  destruct (find (fun e => (fst e =? c)%N) upper_table) as [[c' u]|] eqn:Hf.
  - apply find_some in Hf as [Hin Hc]. simpl in Hc. apply N.eqb_eq in Hc.
    subst c'.
    pose proof (proj1 (forallb_forall _ _) upper_table_no_surrogate _ Hin) as H.
    simpl in H. apply andb_true_iff in H as [H1 H2]. now rewrite H1, H2.
  - simpl. now rewrite andb_true_r.
Qed.

Lemma upper_encodable (s : str) : encodable (upper s) = encodable s.
Proof.
  induction s as [|c s IH]; simpl; [reflexivity|].
  now rewrite encodable_app, upper_char_encodable, IH.
Qed.

(** *** The order of text *)

Lemma compare_eq (a b : str) : compare a b = Eq <-> a = b.
Proof.
  revert b. induction a as [|x a IH]; intros [|y b]; simpl;
    try (split; [discriminate | congruence]); [tauto|].
  destruct (N.compare_spec x y) as [->|Hlt|Hgt].
  - rewrite IH. split; [congruence | now intros [= ->]].
  - split; [discriminate|]. intros [= -> _]. lia.
  - split; [discriminate|]. intros [= -> _]. lia.
Qed.

Lemma compare_antisym (a b : str) : compare a b = CompOpp (compare b a).
Proof.
  revert b. induction a as [|x a IH]; intros [|y b]; simpl; try reflexivity.
  rewrite (N.compare_antisym y x).
  destruct (y ?= x)%N; simpl; auto.
Qed.

Lemma compare_lt_trans (a b c : str) :
  compare a b = Lt -> compare b c = Lt -> compare a c = Lt.
Proof.
  revert b c. induction a as [|x a IH]; intros [|y b] [|z c]; simpl;
    try discriminate; auto.
  destruct (N.compare_spec x y) as [->|Hxy|Hxy]; try discriminate.
  - destruct (N.compare_spec y z) as [->|Hyz|Hyz]; try discriminate; auto.
    apply IH.
  - intros _.
    destruct (N.compare_spec y z) as [->|Hyz|Hyz]; try discriminate; intros _.
    + apply N.compare_lt_iff in Hxy. now rewrite Hxy.
    + assert (H : (x < z)%N) by lia. apply N.compare_lt_iff in H. now rewrite H.
Qed.

Lemma ltb_trans (a b c : str) :
  ltb a b = true -> ltb b c = true -> ltb a c = true.
Proof.
  unfold ltb.
  destruct (compare a b) eqn:Hab; try discriminate.
  destruct (compare b c) eqn:Hbc; try discriminate.
  now rewrite (compare_lt_trans a b c Hab Hbc).
Qed.

Lemma ltb_irreflexive (a : str) : ltb a a = false.
Proof. unfold ltb. now rewrite (proj2 (compare_eq a a) eq_refl). Qed.

Lemma leb_total (a b : str) : leb a b = true \/ leb b a = true.
Proof.
  unfold leb. rewrite (compare_antisym b a).
  destruct (compare a b); simpl; auto.
Qed.

Lemma leb_lt_or_eq (a b : str) : leb a b = true <-> a = b \/ ltb a b = true.
Proof.
  unfold leb, ltb. destruct (compare a b) eqn:Hc.
  - apply compare_eq in Hc. tauto.
  - tauto.
  - split; [discriminate|]. intros [Heq|H]; [|discriminate].
    apply compare_eq in Heq. congruence.
Qed.

Lemma leb_trans (a b c : str) :
  leb a b = true -> leb b c = true -> leb a c = true.
Proof.
  rewrite !leb_lt_or_eq. intros [->|Hab] [->|Hbc]; auto.
  right. eapply ltb_trans; eassumption.
Qed.

Lemma leb_neq_ltb (a b : str) : leb b a = true -> a <> b -> ltb b a = true.
Proof. rewrite leb_lt_or_eq. intros [->|H] Hne; congruence. Qed.

Lemma ltb_not_leb (a b : str) : ltb a b = true -> leb b a = false.
Proof.
  unfold ltb, leb. rewrite (compare_antisym b a).
  now destruct (compare a b).
Qed.

Lemma compare_gt_ltb (a b : str) : compare a b = Gt -> ltb b a = true.
Proof. intros Hc. unfold ltb. rewrite compare_antisym, Hc. reflexivity. Qed.

(** ** Rounding: [round_half_even] is a nearest integer, even on a tie *)

Lemma round_half_even_nearest (num den : Z) :
  0 < den ->
  let q := Py.round_half_even num den in
  2 * Z.abs (num - q * den) <= den /\
  (2 * Z.abs (num - q * den) = den -> Z.even q = true).
Proof.
  intros Hden q. subst q. unfold Py.round_half_even.
  pose proof (Z.div_mod num den ltac:(lia)) as Hdm.
  pose proof (Z.mod_pos_bound num den Hden) as Hb.
  set (d := num / den) in *. set (r := num mod den) in *.
  destruct (Z.compare_spec (2 * r) den) as [He|Hl|Hg].
  - destruct (Z.even d) eqn:Hev.
    + split; [lia|auto].
    + split; [lia|]. intros _.
      rewrite Z.even_add, Hev. reflexivity.
  - split; lia.
  - split; lia.
Qed.

(** Ties on the exact binary value go to the even digit (0.125, 0.375); 2.675
    is a float just below the tie; a result of zero keeps the sign. *)
Example round_two_decimals :
  Py.round 0.125 2 = 0.12%float /\ Py.round 0.375 2 = 0.38%float /\
  Py.round 2.675 2 = 2.67%float /\ Py.round (-0.001) 2 = PrimFloat.neg_zero /\
  Py.round PrimFloat.infinity 2 = PrimFloat.infinity.
Proof. repeat split; vm_compute; reflexivity. Qed.

(** The two summations differ in general, and agree on the seeded series. *)
Example sum_left_to_right_or_compensated :
  Py.sum Py.LeftToRight [0.1; 0.2; 0.3]%float = 0.6000000000000001%float /\
  Py.sum Py.Compensated [0.1; 0.2; 0.3]%float = 0.6%float /\
  Forall (fun t =>
            let prices := map price (firstn 3 (recent_rows t seeded)) in
            Py.sum Py.Compensated prices = Py.sum Py.LeftToRight prices)
    [lit "AAPL"; lit "GOOGL"; lit "TSLA"].
Proof. repeat split; repeat constructor; vm_compute; reflexivity. Qed.

(** The case mapping beyond ASCII: long s, sharp s, e acute; a lone
    surrogate stays. *)
Example upper_beyond_ascii :
  upper (lit "t" ++ [383%N] ++ lit "la") = lit "TSLA" /\
  upper [223%N; 233%N; 55296%N] = (lit "SS" ++ [201%N; 55296%N]).
Proof. split; vm_compute; reflexivity. Qed.

(** ** The ordered query *)

Lemma insert_desc_perm (r : row) (l : list row) :
  Permutation (insert_desc r l) (r :: l).
Proof.
  induction l as [|x l IH]; simpl.
  - apply Permutation_refl.
  - destruct (leb (date x) (date r)).
    + apply Permutation_refl.
    + eapply perm_trans; [apply perm_skip, IH | apply perm_swap].
Qed.

Lemma insert_desc_hd (a r : row) (l : list row) :
  date_desc a r -> HdRel date_desc a l -> HdRel date_desc a (insert_desc r l).
Proof.
  intros Har Hal. destruct l as [|x l]; simpl.
  - constructor; exact Har.
  - destruct (leb (date x) (date r)); constructor.
    + exact Har.
    + inversion Hal; assumption.
Qed.

Lemma insert_desc_sorted (r : row) (l : list row) :
  Sorted date_desc l -> Sorted date_desc (insert_desc r l).
Proof.
  induction 1 as [|x l Hs IH Hhd]; simpl.
  - repeat constructor.
  - destruct (leb (date x) (date r)) eqn:Hle.
    + constructor; [constructor; assumption|]. constructor. exact Hle.
    + constructor; [exact IH|].
      apply insert_desc_hd; [|exact Hhd].
      unfold date_desc.
      destruct (leb_total (date x) (date r)) as [H|H]; congruence.
Qed.

Lemma order_by_date_desc_perm (l : list row) :
  Permutation (order_by_date_desc l) l.
Proof.
  induction l as [|x l IH]; simpl.
  - constructor.
  - eapply perm_trans; [apply insert_desc_perm | apply perm_skip, IH].
Qed.

Lemma order_by_date_desc_sorted (l : list row) :
  Sorted date_desc (order_by_date_desc l).
Proof.
  induction l as [|x l IH]; simpl.
  - constructor.
  - apply insert_desc_sorted, IH.
Qed.

Lemma date_desc_transitive : Relations_1.Transitive date_desc.
Proof. intros a b c Hab Hbc. unfold date_desc in *. eapply leb_trans; eassumption. Qed.

Lemma order_by_date_desc_strongly_sorted (l : list row) :
  StronglySorted date_desc (order_by_date_desc l).
Proof.
  apply Sorted_StronglySorted;
    [exact date_desc_transitive | apply order_by_date_desc_sorted].
Qed.

Lemma order_by_date_desc_length (l : list row) :
  List.length (order_by_date_desc l) = List.length l.
Proof. apply Permutation_length, order_by_date_desc_perm. Qed.

Lemma recent_rows_length (t : str) (db : database) :
  List.length (recent_rows t db) = List.length (where_ticker t (rows_of db)).
Proof. apply order_by_date_desc_length. Qed.

Lemma recent_rows_sorted (t : str) (db : database) :
  StronglySorted date_desc (recent_rows t db).
Proof. apply order_by_date_desc_strongly_sorted. Qed.

Lemma recent_rows_perm (t : str) (db : database) :
  Permutation (recent_rows t db) (where_ticker t (rows_of db)).
Proof. apply order_by_date_desc_perm. Qed.

(** A statement that finds its table and binds its text ranges over the
    observations of the ticker. *)
Lemma query_runs (t : str) (db : database) :
  query_failure t db = None ->
  observations t db = where_ticker t (rows_of db) /\
  encodable t = true /\ exists rows, db = Some rows.
Proof.
  unfold query_failure, observations. destruct db as [rows|]; [|discriminate].
  destruct (encodable t); [|discriminate]. eauto.
Qed.

Lemma observations_query (t : str) (db : database) :
  observations t db <> [] -> query_failure t db = None.
Proof.
  unfold query_failure, observations. destruct db as [rows|]; simpl.
  - now destruct (encodable t).
  - destruct (encodable t); simpl; congruence.
Qed.

Lemma observations_three (t : str) (db : database) :
  (3 <= List.length (observations t db))%nat ->
  query_failure t db = None /\
  (3 <= List.length (where_ticker t (rows_of db)))%nat.
Proof.
  intros Hlen.
  assert (Hq : query_failure t db = None).
  { apply observations_query. intros H. rewrite H in Hlen. simpl in Hlen. lia. }
  split; [exact Hq|].
  now rewrite <- (proj1 (query_runs t db Hq)).
Qed.

Lemma bind_int_in_range (n : Z) :
  - 2 ^ 63 <= n < 2 ^ 63 -> bind_int n = inr n.
Proof.
  intros [Hlo Hhi]. unfold bind_int.
  apply Z.leb_le in Hlo. apply Z.ltb_lt in Hhi.
  now rewrite Hlo, Hhi.
Qed.

Lemma bind_int_out_of_range (n : Z) :
  ~ (- 2 ^ 63 <= n < 2 ^ 63) -> bind_int n = inl int_too_large.
Proof.
  intros Hn. unfold bind_int.
  destruct (- 2 ^ 63 <=? n) eqn:Hlo; [|reflexivity].
  destruct (n <? 2 ^ 63) eqn:Hhi; [|reflexivity].
  apply Z.leb_le in Hlo. apply Z.ltb_lt in Hhi. tauto.
Qed.

Lemma select_rows_run (t : str) (n : Z) (db : database) :
  select_rows t n db =
  match query_failure t db with
  | Some e => (inl e, db)
  | None =>
      match bind_int n with
      | inl e => (inl e, db)
      | inr n' => (inr (limit n' (recent_rows t db)), db)
      end
  end.
Proof.
  unfold select_rows, query_failure, prepare, bind, eval, ret, bind_text.
  destruct db as [rows|]; [|reflexivity].
  destruct (encodable t); [|reflexivity].
  now destruct (bind_int n).
Qed.

Lemma select_rows_in_range (t : str) (n : Z) (db : database) :
  query_failure t db = None ->
  - 2 ^ 63 <= n < 2 ^ 63 ->
  select_rows t n db = (inr (limit n (recent_rows t db)), db).
Proof.
  intros Hq Hn. now rewrite select_rows_run, Hq, (bind_int_in_range n Hn).
Qed.

Lemma three_in_range : - 2 ^ 63 <= 3 < 2 ^ 63.
Proof. vm_compute. split; congruence. Qed.

Lemma limit_three {A} (l : list A) : limit 3 l = firstn 3 l.
Proof. reflexivity. Qed.

(** ** [predict_stock_price] *)

Lemma predict_stock_price_run (impl : Py.summation) (ticker : str)
    (db : database) :
  predict_stock_price impl ticker db =
  (inr match query_failure (upper ticker) db with
       | Some e => prediction_failed ticker e
       | None =>
           prediction_of impl ticker
             (map price (firstn 3 (recent_rows (upper ticker) db)))
       end,
   db).
Proof.
  unfold predict_stock_price, get_historical_prices, select_price,
    try_except, bind, ret.
  rewrite select_rows_run.
  destruct (query_failure (upper ticker) db); [reflexivity|].
  rewrite (bind_int_in_range 3 three_in_range), limit_three.
  unfold prediction_of.
  destruct (List.length _ <? 3)%nat; reflexivity.
Qed.


Lemma get_historical_prices_run (ticker : str) (days : Z) (db : database) :
  query_failure (upper ticker) db = None ->
  - 2 ^ 63 <= days < 2 ^ 63 ->
  get_historical_prices ticker days db =
  (inr (map price (limit days (recent_rows (upper ticker) db))), db).
Proof.
  intros Hq Hd. unfold get_historical_prices, select_price, bind, ret.
  now rewrite (select_rows_in_range _ _ _ Hq Hd).
Qed.


Lemma prediction_of_enough (impl : Py.summation) (ticker : str)
    (prices : list float) :
  (3 <= List.length prices)%nat ->
  exists p m,
    prediction_of impl ticker prices =
    Prediction (upper ticker) p prices m
      (lit "Moving Average (3-day) with Trend Adjustment")
      (lit "Medium (Rule-based prediction)").
Proof.
  intros Hlen. unfold prediction_of.
  apply Nat.ltb_ge in Hlen. rewrite Hlen. eauto.
Qed.

Lemma recent_prices_length (t : str) (db : database) :
  List.length (map price (firstn 3 (recent_rows t db))) =
  Nat.min 3 (List.length (where_ticker t (rows_of db))).
Proof. now rewrite length_map, length_firstn, recent_rows_length. Qed.



(** C1. On the seeded store, whose AAPL observations are 2024-10-01 -> 150.25,
    2024-10-02 -> 152.30, 2024-10-03 -> 148.75 and 2024-10-04 -> 151.20,
    [predict_stock_price "AAPL"] returns moving_average 150.75, prediction
    151.0 and historical_prices [151.2; 148.75; 152.3], most recent first,
    under either summation. *)
Theorem predict_seeded_AAPL (impl : Py.summation) :
  where_ticker (lit "AAPL") (rows_of seeded) =
    [ mkRow (lit "AAPL") (lit "2024-10-01") 150.25;
      mkRow (lit "AAPL") (lit "2024-10-02") 152.30;
      mkRow (lit "AAPL") (lit "2024-10-03") 148.75;
      mkRow (lit "AAPL") (lit "2024-10-04") 151.20 ] /\
  predict_stock_price impl (lit "AAPL") seeded =
    (inr (Prediction (lit "AAPL") 151.0 [151.2; 148.75; 152.3]%float 150.75
            (lit "Moving Average (3-day) with Trend Adjustment")
            (lit "Medium (Rule-based prediction)")),
     seeded).
Proof. split; [|destruct impl]; vm_compute; reflexivity. Qed.






(** C6. For a ticker with at least three stored observations, any spelling
    of it gets the result of its upper-case spelling, and the result's
    ticker is the upper-case form. *)
Theorem predict_case_insensitive (impl : Py.summation) (spelling : str)
    (db : database) :
  (3 <= List.length (observations (upper spelling) db))%nat ->
  predict_stock_price impl spelling db =
    predict_stock_price impl (upper spelling) db /\
  exists r,
    predict_stock_price impl spelling db = (inr r, db) /\
    result_ticker r = upper spelling /\
    result_prediction r <> None.
Proof.
  intros Hobs. destruct (observations_three _ _ Hobs) as [Hq Hlen].
  rewrite !predict_stock_price_run, upper_idempotent, Hq.
  pose proof (recent_prices_length (upper spelling) db) as Hn.
  rewrite Nat.min_l in Hn by exact Hlen.
  assert (Hlt : (List.length
                   (map price (firstn 3 (recent_rows (upper spelling) db)))
                 <? 3)%nat = false) by (apply Nat.ltb_ge; lia).
  unfold prediction_of. rewrite Hlt, upper_idempotent.
  split; [reflexivity|].
  eexists. split; [reflexivity|]. split; [reflexivity | discriminate].
Qed.

(** The spellings "aapl" and, with a long s, "tſla". *)
Lemma predict_case_insensitive_witness :
  (predict_stock_price Py.LeftToRight (lit "aapl") seeded =
     predict_stock_price Py.LeftToRight (lit "AAPL") seeded /\
   exists r,
     predict_stock_price Py.LeftToRight (lit "aapl") seeded = (inr r, seeded) /\
     result_ticker r = lit "AAPL" /\
     result_prediction r <> None) /\
  (predict_stock_price Py.LeftToRight (lit "t" ++ [383%N] ++ lit "la") seeded =
     predict_stock_price Py.LeftToRight (lit "TSLA") seeded /\
   exists r,
     predict_stock_price Py.LeftToRight (lit "t" ++ [383%N] ++ lit "la") seeded
       = (inr r, seeded) /\
     result_ticker r = lit "TSLA" /\
     result_prediction r <> None).
Proof.
  split.
  - apply (predict_case_insensitive Py.LeftToRight (lit "aapl") seeded).
    vm_compute. lia.
  - apply (predict_case_insensitive Py.LeftToRight
             (lit "t" ++ [383%N] ++ lit "la") seeded).
    vm_compute. lia.
Defined.

(** C9. [predict_stock_price] writes nothing: after any sequence of calls
    the store is the one before the first call, and every call returns what
    it returns on that store, whatever was asked before. *)
Theorem predict_leaves_store (impl : Py.summation) (tickers : list str)
    (db : database) :
  exists rs,
    predict_each impl tickers db = (inr rs, db) /\
    Forall2 (fun t r => predict_stock_price impl t db = (inr r, db))
      tickers rs.
Proof.
  induction tickers as [|t ts (rs & Hrun & Hall)].
  - exists []. split; [reflexivity | constructor].
  - eexists (_ :: rs). split.
    + cbn [predict_each]. unfold bind at 1.
      rewrite predict_stock_price_run. unfold bind at 1.
      rewrite Hrun. reflexivity.
    + constructor; [apply predict_stock_price_run | exact Hall].
Qed.

(** ** Writes: [INSERT OR IGNORE] in [init_db], [INSERT OR REPLACE] in
    [add_stock_price] *)

Lemma same_key_true (t d : str) (r : row) :
  same_key t d r = true <-> key r = (t, d).
Proof.
  unfold same_key, key. rewrite andb_true_iff, !str_eqb_eq.
  split; [intros [-> ->]; reflexivity | intros [= -> ->]; auto].
Qed.

Lemma same_key_refl (t d : str) (p : float) :
  same_key t d (mkRow t d p) = true.
Proof. apply same_key_true. reflexivity. Qed.

Lemma existsb_same_key (t d : str) (rows : table) :
  existsb (same_key t d) rows = true <-> In (t, d) (map key rows).
Proof.
  rewrite existsb_exists, in_map_iff.
  split; intros (r & H1 & H2); exists r.
  - apply same_key_true in H2. auto.
  - split; [assumption | now apply same_key_true].
Qed.

(** A key under which a price is stored is a key of a row of the table, and
    its two strings are encodable. *)
Lemma price_at_present (t d : str) (p : float) (db : database) :
  price_at t d db = Some p ->
  exists rows,
    db = Some rows /\ existsb (same_key t d) rows = true /\
    encodable t = true /\ encodable d = true.
Proof.
  unfold price_at.
  destruct (encodable t) eqn:Ht; [|discriminate].
  destruct (encodable d) eqn:Hd; [|discriminate]. simpl.
  destruct db as [rows|]; [|discriminate]. simpl.
  destruct (find (same_key t d) rows) as [r|] eqn:Hf; [|discriminate].
  intros _. apply find_some in Hf. exists rows.
  repeat split. apply existsb_exists. now exists r.
Qed.

Lemma unique_keys_snoc (rows : table) (r : row) :
  unique_keys rows -> ~ In (key r) (map key rows) -> unique_keys (rows ++ [r]).
Proof.
  unfold unique_keys. intros Hnd Hnin. rewrite map_app. simpl.
  apply (Permutation_NoDup (l := key r :: map key rows)).
  - apply (Permutation_app_comm [key r]).
  - now constructor.
Qed.

Lemma unique_keys_filter (f : row -> bool) (rows : table) :
  unique_keys rows -> unique_keys (filter f rows).
Proof.
  unfold unique_keys. induction rows as [|x rows IH]; simpl; intros Hnd.
  - constructor.
  - inversion Hnd as [|? ? Hnin Hnd']; subst.
    destruct (f x); simpl; [constructor|]; auto.
    intros Hin. apply Hnin. apply in_map_iff in Hin as (r & Hk & Hr).
    apply filter_In in Hr as [Hr _]. apply in_map_iff. eauto.
Qed.

Lemma filter_other_keys (t d : str) (rows : table) :
  ~ In (t, d) (map key (filter (fun r => negb (same_key t d r)) rows)).
Proof.
  intros Hin. apply in_map_iff in Hin as (r & Hk & Hr).
  apply filter_In in Hr as [_ Hneg].
  apply same_key_true in Hk. rewrite Hk in Hneg. discriminate.
Qed.

Lemma find_replaced (t d : str) (r : row) (rows : table) :
  same_key t d r = true ->
  find (same_key t d)
    (filter (fun x => negb (same_key t d x)) rows ++ [r]) = Some r.
Proof.
  intros Hr. induction rows as [|x rows IH]; simpl.
  - now rewrite Hr.
  - destruct (same_key t d x) eqn:Hx; simpl; [exact IH|].
    now rewrite Hx.
Qed.

(** *** One statement *)

Lemma insert_or_ignore_run (t d : str) (p : float) (db : database) :
  insert_or_ignore t d p db =
  match db with
  | None => (inl no_such_table, db)
  | Some rows =>
      if encodable t then
        if encodable d then
          match bind_real p with
          | None => (inr tt, db)
          | Some p' =>
              if existsb (same_key t d) rows then (inr tt, db)
              else (inr tt, Some (rows ++ [mkRow t d p']))
          end
        else (inl (surrogates_not_allowed d), db)
      else (inl (surrogates_not_allowed t), db)
  end.
Proof.
  unfold insert_or_ignore, prepare, bind, eval, ret, write, bind_text.
  destruct db as [rows|]; [|reflexivity].
  destruct (encodable t); [|reflexivity].
  destruct (encodable d); [|reflexivity].
  destruct (bind_real p); [|reflexivity].
  now destruct (existsb (same_key t d) rows).
Qed.

Lemma insert_or_ignore_present (t d : str) (q : float) (rows : table) :
  encodable t = true -> encodable d = true ->
  existsb (same_key t d) rows = true ->
  insert_or_ignore t d q (Some rows) = (inr tt, Some rows).
Proof.
  intros Ht Hd Hex. rewrite insert_or_ignore_run, Ht, Hd, Hex.
  now destruct (bind_real q).
Qed.

Lemma insert_or_ignore_invariant (t d : str) (q : float) (db : database) :
  upper t = t -> store_invariant db ->
  store_invariant (snd (insert_or_ignore t d q db)).
Proof.
  intros Hup Hinv. rewrite insert_or_ignore_run.
  destruct db as [rows|]; [|exact Hinv].
  destruct (encodable t); [|exact Hinv].
  destruct (encodable d); [|exact Hinv].
  destruct (bind_real q) as [q'|]; [|exact Hinv].
  destruct (existsb (same_key t d) rows) eqn:Hex; [exact Hinv|].
  destruct Hinv as [Hk Hu]. split; simpl in *.
  - apply unique_keys_snoc; [exact Hk|].
    intros Hin. apply existsb_same_key in Hin. simpl in Hin. congruence.
  - apply Forall_app. split; [exact Hu | now constructor].
Qed.

(** What [INSERT OR REPLACE] does to the database: nothing when it raises,
    else one key replaced. *)
Lemma insert_or_replace_effect (conv : conversions) (t : str) (d : value)
    (p : float) (db : database) :
  snd (insert_or_replace conv t d p db) = db \/
  exists rows d' p',
    db = Some rows /\
    snd (insert_or_replace conv t d p db) =
      Some (filter (fun r => negb (same_key t d' r)) rows
              ++ [mkRow t d' p']).
Proof.
  unfold insert_or_replace, prepare, bind, eval, ret, write, raise, bind_text.
  destruct db as [rows|]; [|now left].
  destruct (encodable t); [|now left].
  destruct (bind_as_text conv 2 d) as [e|[d'|]]; try (now left).
  destruct (bind_real p) as [p'|]; [|now left].
  right. now exists rows, d', p'.
Qed.

Lemma replaced_invariant (t d : str) (p : float) (rows : table) :
  upper t = t -> store_invariant (Some rows) ->
  store_invariant
    (Some (filter (fun r => negb (same_key t d r)) rows ++ [mkRow t d p])).
Proof.
  intros Hup [Hk Hu]. split; simpl in *.
  - apply unique_keys_snoc; [now apply unique_keys_filter|].
    apply filter_other_keys.
  - apply Forall_app. split; [|now constructor].
    apply Forall_forall. intros r Hr. apply filter_In in Hr as [Hr _].
    revert r Hr. now apply Forall_forall.
Qed.

(** *** The two writers *)

Lemma for_each_insert_invariant (data : list (str * str * float)) :
  Forall (fun '(t, _, _) => upper t = t) data ->
  forall db, store_invariant db ->
    store_invariant
      (snd (for_each data (fun '(t, d, p) => insert_or_ignore t d p) db)).
Proof.
  induction 1 as [|[[t d] p] data Hup _ IH]; intros db Hinv.
  - exact Hinv.
  - cbn [for_each]. unfold bind at 1.
    pose proof (insert_or_ignore_invariant t d p db Hup Hinv) as Hstep.
    destruct (insert_or_ignore t d p db) as [[e|[]] db'].
    + exact Hstep.
    + apply IH. exact Hstep.
Qed.

Lemma sample_data_upper_case :
  Forall (fun '(t, _, _) => upper t = t) sample_data.
Proof. unfold sample_data. repeat constructor. Qed.

Lemma init_db_invariant (db : database) :
  store_invariant db -> store_invariant (snd (init_db db)).
Proof.
  intros Hinv. unfold init_db, create_table_if_not_exists. unfold bind at 1.
  apply for_each_insert_invariant; [exact sample_data_upper_case|].
  destruct db; exact Hinv.
Qed.

(** What a request does to the database, whatever its body: nothing, or one
    key replaced under an upper-cased ticker. *)
Lemma add_stock_price_effect (conv : conversions) (body : exn + value)
    (db : database) :
  snd (add_stock_price conv body db) = db \/
  exists rows s d p,
    db = Some rows /\
    snd (add_stock_price conv body db) =
      Some (filter (fun r => negb (same_key (upper s) d r)) rows
              ++ [mkRow (upper s) d p]).
Proof.
  remember (add_stock_price conv body db) as result eqn:Hres.
  unfold add_stock_price, try_except in Hres.
  unfold bind at 1, eval at 1 in Hres.
  destruct body as [e|data]; [left; now subst result|].
  unfold bind at 1, eval at 1 in Hres.
  destruct (all_in data _) as [e|[|]];
    [left; now subst result| |left; now subst result].
  cbn [negb] in Hres. unfold bind at 1, eval at 1 in Hres.
  destruct (getitem data (lit "ticker")) as [e|ticker_field];
    [left; now subst result|].
  unfold bind at 1, eval at 1 in Hres.
  destruct (call_upper ticker_field) as [e|ticker] eqn:Hupper;
    [left; now subst result|].
  unfold bind at 1, eval at 1 in Hres.
  destruct (getitem data (lit "date")) as [e|date];
    [left; now subst result|].
  unfold bind at 1, eval at 1 in Hres.
  destruct (getitem data (lit "price")) as [e|price_field];
    [left; now subst result|].
  unfold bind at 1, eval at 1 in Hres.
  destruct (float_of conv price_field) as [e|price];
    [left; now subst result|].
  unfold bind at 1 in Hres.
  destruct (insert_or_replace_effect conv ticker date price db)
    as [Hsame|(rows & d' & p' & Hdb & Hnew)].
  - left. destruct (insert_or_replace conv ticker date price db) as [[e|[]] db'];
      subst result; simpl in *; exact Hsame.
  - right. destruct ticker_field; try discriminate.
    injection Hupper as <-. exists rows, s, d', p'. split; [exact Hdb|].
    destruct (insert_or_replace conv (upper s) date price db) as [[e|[]] db'];
      subst result; simpl in *; exact Hnew.
Qed.

Lemma add_stock_price_invariant (conv : conversions) (body : exn + value)
    (db : database) :
  store_invariant db -> store_invariant (snd (add_stock_price conv body db)).
Proof.
  intros Hinv.
  destruct (add_stock_price_effect conv body db)
    as [->|(rows & s & d & p & -> & ->)]; [exact Hinv|].
  apply replaced_invariant; [apply upper_idempotent | exact Hinv].
Qed.

(** C5. After every write, the seeding insert-if-absent of [init_db] or the
    insert-or-replace of [add_stock_price], the store holds at most one
    observation per (ticker, date) and every stored ticker is upper-case. *)
Theorem writes_keep_store_invariant (db : database) :
  reachable db ->
  NoDup (map (fun r => (ticker r, date r)) (rows_of db)) /\
  Forall (fun r => upper (ticker r) = ticker r) (rows_of db).
Proof.
  intros Hreach. change (store_invariant db).
  induction Hreach as [|db _ IH|db conv body _ IH].
  - split; constructor.
  - now apply init_db_invariant.
  - now apply add_stock_price_invariant.
Qed.

Lemma writes_keep_store_invariant_witness :
  let db := snd (add_stock_price no_conversions
                   (price_request (lit "aapl") (lit "2024-10-04") 155.5)
                   seeded) in
  NoDup (map (fun r => (ticker r, date r)) (rows_of db)) /\
  Forall (fun r => upper (ticker r) = ticker r) (rows_of db).
Proof.
  apply writes_keep_store_invariant.
  apply reach_add_stock_price, (reach_init_db None), reach_new.
Defined.

(** The route on a body with two strings and a float. *)
Lemma add_stock_price_typed (conv : conversions) (t d : str) (p : float)
    (db : database) :
  add_stock_price conv (price_request t d p) db =
  match db with
  | None =>
      (inr (AddError (lit "Error adding stock price: "
                        ++ exn_message no_such_table)), db)
  | Some rows =>
      if encodable t then
        if encodable d then
          if PrimFloat.is_nan p then
            (inr (AddError (lit "Error adding stock price: "
                              ++ exn_message (not_null "price"))), db)
          else
            (inr (Added (lit "Stock price added successfully")),
             Some (filter (fun r => negb (same_key (upper t) d r)) rows
                     ++ [mkRow (upper t) d (stored_real p)]))
        else
          (inr (AddError (lit "Error adding stock price: "
                            ++ exn_message (surrogates_not_allowed d))), db)
      else
        (inr (AddError (lit "Error adding stock price: "
                          ++ exn_message (surrogates_not_allowed (upper t)))),
         db)
  end.
Proof.
  unfold add_stock_price, price_request, try_except.
  unfold bind at 1, eval at 1.
  change (all_in _ _) with (@inr exn bool true).
  unfold bind at 1, eval at 1. cbn [negb].
  change (getitem _ (lit "ticker")) with (@inr exn value (VStr t)).
  unfold bind at 1, eval at 1. cbn [call_upper].
  unfold bind at 1, eval at 1.
  change (getitem _ (lit "date")) with (@inr exn value (VStr d)).
  unfold bind at 1, eval at 1.
  change (getitem _ (lit "price")) with (@inr exn value (VFloat p)).
  unfold bind at 1, eval at 1. cbn [float_of].
  unfold bind at 1, eval at 1.
  unfold insert_or_replace, prepare, bind, eval, ret, write, raise, bind_text,
    bind_as_text, bind_real.
  destruct db as [rows|]; [|reflexivity].
  rewrite upper_encodable.
  destruct (encodable t); [|reflexivity].
  unfold bind_text. destruct (encodable d); [|reflexivity].
  now destruct (PrimFloat.is_nan p).
Qed.

Lemma add_stock_price_number (conv : conversions) (t d : str) (p : float)
    (rows : table) :
  encodable t = true -> encodable d = true -> PrimFloat.is_nan p = false ->
  add_stock_price conv (price_request t d p) (Some rows) =
  (inr (Added (lit "Stock price added successfully")),
   Some (filter (fun r => negb (same_key (upper t) d r)) rows
           ++ [mkRow (upper t) d (stored_real p)])).
Proof. intros Ht Hd Hp. now rewrite add_stock_price_typed, Ht, Hd, Hp. Qed.

Lemma add_stock_price_nan (conv : conversions) (t d : str) (p : float)
    (db : database) :
  PrimFloat.is_nan p = true ->
  exists msg,
    add_stock_price conv (price_request t d p) db = (inr (AddError msg), db).
Proof.
  intros Hp. rewrite add_stock_price_typed, Hp.
  destruct db; [|eauto]. destruct (encodable t), (encodable d); eauto.
Qed.

(** Seeding the same key twice: once the first price, a number, is in the
    store (or another price was there before), the second insert is
    ignored. *)
Lemma insert_or_ignore_twice (t d : str) (p q : float) (db : database) :
  PrimFloat.is_nan p = false ->
  snd ((insert_or_ignore t d p ;;; insert_or_ignore t d q) db) =
  snd (insert_or_ignore t d p db).
Proof.
  intros Hp. unfold bind. rewrite (insert_or_ignore_run t d p db).
  destruct db as [rows|]; [|reflexivity].
  destruct (encodable t) eqn:Ht; [|reflexivity].
  destruct (encodable d) eqn:Hd; [|reflexivity].
  unfold bind_real. rewrite Hp.
  destruct (existsb (same_key t d) rows) eqn:Hex.
  - now rewrite insert_or_ignore_present.
  - rewrite insert_or_ignore_present; auto.
    rewrite existsb_app. simpl. rewrite same_key_refl.
    now rewrite orb_true_r.
Qed.

(** C4, as the code has it.  For a (ticker, date) already in the store:
    [INSERT OR IGNORE] with any price, once or twice, leaves the store and so
    the stored price as they are; [add_stock_price] with a price that is a
    number replaces the stored price, and the key then reads the new price
    (0.0 for a negative zero); with NaN the request fails on the NOT NULL
    constraint and the store stays as it is. *)
Theorem upsert_existing_key (conv : conversions) (db : database)
    (t d : str) (p : float) :
  price_at t d db = Some p ->
  (forall q, insert_or_ignore t d q db = (inr tt, db)) /\
  (forall q q',
      (insert_or_ignore t d q ;;; insert_or_ignore t d q') db = (inr tt, db)) /\
  (forall spelling p',
      upper spelling = t -> PrimFloat.is_nan p' = false ->
      exists db',
        add_stock_price conv (price_request spelling d p') db =
          (inr (Added (lit "Stock price added successfully")), db') /\
        price_at t d db' = Some (stored_real p')) /\
  (forall spelling p',
      upper spelling = t -> PrimFloat.is_nan p' = true ->
      exists msg,
        add_stock_price conv (price_request spelling d p') db =
          (inr (AddError msg), db)).
Proof.
  intros Hp.
  destruct (price_at_present _ _ _ _ Hp) as (rows & -> & Hex & Ht & Hd).
  split; [|split; [|split]].
  - intros q. now apply insert_or_ignore_present.
  - intros q q'. unfold bind.
    rewrite (insert_or_ignore_present t d q rows Ht Hd Hex).
    now apply insert_or_ignore_present.
  - intros spelling p' Hup Hnum. eexists. split.
    + apply add_stock_price_number; auto.
      now rewrite <- upper_encodable, Hup.
    + rewrite Hup. unfold price_at. rewrite Ht, Hd. simpl.
      rewrite find_replaced by apply same_key_refl. reflexivity.
  - intros spelling p' Hup Hnan. now apply add_stock_price_nan.
Qed.

Lemma upsert_existing_key_witness :
  (forall q, insert_or_ignore (lit "AAPL") (lit "2024-10-04") q seeded
             = (inr tt, seeded)) /\
  (forall q q',
      (insert_or_ignore (lit "AAPL") (lit "2024-10-04") q ;;;
       insert_or_ignore (lit "AAPL") (lit "2024-10-04") q') seeded
      = (inr tt, seeded)) /\
  (forall spelling p',
      upper spelling = lit "AAPL" -> PrimFloat.is_nan p' = false ->
      exists db',
        add_stock_price no_conversions
          (price_request spelling (lit "2024-10-04") p') seeded =
          (inr (Added (lit "Stock price added successfully")), db') /\
        price_at (lit "AAPL") (lit "2024-10-04") db' = Some (stored_real p')) /\
  (forall spelling p',
      upper spelling = lit "AAPL" -> PrimFloat.is_nan p' = true ->
      exists msg,
        add_stock_price no_conversions
          (price_request spelling (lit "2024-10-04") p') seeded =
          (inr (AddError msg), seeded)).
Proof.
  apply (upsert_existing_key no_conversions seeded (lit "AAPL")
           (lit "2024-10-04") 151.20).
  vm_compute. reflexivity.
Defined.

(** C4 as stated fails for the price NaN: on the seeded store the request
    is answered with an error and AAPL 2024-10-01 keeps its price 150.25. *)
Lemma add_stock_price_nan_not_stored :
  let db' := snd (add_stock_price no_conversions
                    (price_request (lit "AAPL") (lit "2024-10-01")
                       PrimFloat.nan) seeded) in
  price_at (lit "AAPL") (lit "2024-10-01") seeded = Some 150.25%float /\
  price_at (lit "AAPL") (lit "2024-10-01") db' = Some 150.25%float /\
  price_at (lit "AAPL") (lit "2024-10-01") db' <> Some PrimFloat.nan.
Proof.
  repeat split; try (vm_compute; reflexivity).
  vm_compute. intros H.
  apply (f_equal (option_map PrimFloat.is_nan)) in H. discriminate H.
Qed.

(** ** Reads: [get_historical_prices] and [get_historical_data] *)

Lemma limit_negative {A} (n : Z) (l : list A) : n < 0 -> limit n l = l.
Proof. intros Hn. unfold limit. apply Z.ltb_lt in Hn. now rewrite Hn. Qed.

Lemma limit_nonnegative {A} (n : Z) (l : list A) :
  0 <= n -> limit n l = firstn (Z.to_nat n) l.
Proof. intros Hn. unfold limit. apply Z.ltb_ge in Hn. now rewrite Hn. Qed.






Lemma get_historical_data_run (ticker : str) (days_arg : option Z)
    (db : database) :
  get_historical_data ticker days_arg db =
  (inr match query_failure (upper ticker) db with
       | Some e =>
           HistoricalError (lit "Error fetching historical data: "
                              ++ exn_message e)
       | None =>
           match bind_int (match days_arg with Some d => d | None => 10 end) with
           | inl e =>
               HistoricalError (lit "Error fetching historical data: "
                                  ++ exn_message e)
           | inr n =>
               let rows := limit n (recent_rows (upper ticker) db) in
               Historical (upper ticker) (map date_price rows)
                 (List.length (map date_price rows))
           end
       end, db).
Proof.
  unfold get_historical_data, select_date_price, try_except, bind, ret.
  rewrite select_rows_run.
  destruct (query_failure (upper ticker) db); [reflexivity|].
  now destruct (bind_int _).
Qed.

Lemma get_historical_data_in_range (ticker : str) (days : Z) (db : database) :
  query_failure (upper ticker) db = None ->
  - 2 ^ 63 <= days < 2 ^ 63 ->
  get_historical_data ticker (Some days) db =
  (inr (Historical (upper ticker)
          (map date_price (limit days (recent_rows (upper ticker) db)))
          (List.length
             (map date_price (limit days (recent_rows (upper ticker) db))))),
   db).
Proof.
  intros Hq Hd. now rewrite get_historical_data_run, Hq, (bind_int_in_range _ Hd).
Qed.








(* ================================================================== *)
(** * Further properties of the code *)
(* ================================================================== *)

(** ** [init_db] run on any database *)

Lemma existsb_app_l {A} (f : A -> bool) (l l' : list A) :
  existsb f l = true -> existsb f (l ++ l') = true.
Proof. intros H. rewrite existsb_app, H. reflexivity. Qed.

Lemma existsb_app_false {A} (f : A -> bool) (l l' : list A) :
  existsb f (l ++ l') = false -> existsb f l = false.
Proof. rewrite existsb_app. now intros [H _]%orb_false_iff. Qed.

Lemma for_each_cons {A} (x : A) (xs : list A) (body : A -> DB unit)
    (db db1 : database) :
  body x db = (inr tt, db1) ->
  for_each (x :: xs) body db = for_each xs body db1.
Proof. intros H. cbn [for_each]. unfold bind. now rewrite H. Qed.

(** What one seeding loop adds: rows of the data, under keys that were not
    in the table. *)
Lemma seed_extends (data : list (str * str * float)) :
  Forall (fun '(t, d, _) => encodable t = true /\ encodable d = true) data ->
  forall rows, exists added,
    for_each data (fun '(t, d, p) => insert_or_ignore t d p) (Some rows) =
      (inr tt, Some (rows ++ added)) /\
    Forall (fun r => exists t d p,
                In (t, d, p) data /\ r = mkRow t d (stored_real p) /\
                existsb (same_key t d) rows = false) added.
Proof.
  induction 1 as [|[[t d] p] data [Ht Hd] _ IH]; intros rows.
  - exists []. split; [now rewrite app_nil_r | constructor].
  - assert (Hstep : exists one,
               insert_or_ignore t d p (Some rows) = (inr tt, Some (rows ++ one)) /\
               Forall (fun r => r = mkRow t d (stored_real p) /\
                                existsb (same_key t d) rows = false) one).
    { rewrite insert_or_ignore_run, Ht, Hd. unfold bind_real.
      destruct (PrimFloat.is_nan p);
        [exists []; split; [now rewrite app_nil_r | constructor]|].
      destruct (existsb (same_key t d) rows) eqn:Hex.
      - exists []. split; [now rewrite app_nil_r | constructor].
      - eexists [_]. split; [reflexivity|]. repeat constructor. }
    destruct Hstep as (one & Hrun1 & Hone).
    destruct (IH (rows ++ one)) as (more & Hrun & Hmore).
    exists (one ++ more). split.
    { rewrite (for_each_cons (t, d, p) data
               (fun '(t, d, p) => insert_or_ignore t d p) _ _ Hrun1).
      now rewrite app_assoc. }
    apply Forall_app. split.
    + eapply Forall_impl; [|exact Hone]. intros r [-> Hex].
      exists t, d, p. simpl. auto.
    + eapply Forall_impl; [|exact Hmore].
      intros r (t' & d' & p' & Hin & -> & Hex).
      exists t', d', p'. simpl. split; [auto|]. split; [reflexivity|].
      now apply existsb_app_false in Hex.
Qed.

Lemma seed_present (data : list (str * str * float)) :
  Forall (fun '(t, d, _) => encodable t = true /\ encodable d = true) data ->
  Forall (fun '(_, _, p) => PrimFloat.is_nan p = false) data ->
  forall rows t d p, In (t, d, p) data ->
    existsb (same_key t d)
      (rows_of (snd (for_each data (fun '(t, d, p) => insert_or_ignore t d p)
                       (Some rows)))) = true.
Proof.
  intros Henc Hnum. revert Henc.
  induction Hnum as [|[[t0 d0] p0] data Hnum _ IH]; intros Henc rows t d p Hin.
  - destruct Hin.
  - inversion Henc as [|? ? Hhead Henc']; subst.
    cbn beta iota in Hhead. destruct Hhead as [Ht0 Hd0].
    assert (Hstep : exists rows1,
               insert_or_ignore t0 d0 p0 (Some rows) = (inr tt, Some rows1) /\
               existsb (same_key t0 d0) rows1 = true).
    { rewrite insert_or_ignore_run, Ht0, Hd0. unfold bind_real. rewrite Hnum.
      destruct (existsb (same_key t0 d0) rows) eqn:Hex.
      - exists rows. auto.
      - eexists. split; [reflexivity|]. rewrite existsb_app. simpl.
        rewrite same_key_refl. now rewrite orb_true_r. }
    destruct Hstep as (rows1 & Hrun1 & Hex1).
    rewrite (for_each_cons (t0, d0, p0) data
               (fun '(t, d, p) => insert_or_ignore t d p) _ _ Hrun1).
    destruct Hin as [[= -> -> ->]|Hin]; [|now apply (IH Henc' _ t d p)].
    destruct (seed_extends data Henc' rows1) as (added & -> & _). simpl.
    now apply existsb_app_l.
Qed.

Lemma seed_noop (data : list (str * str * float)) (rows : table) :
  Forall (fun '(t, d, _) => encodable t = true /\ encodable d = true) data ->
  (forall t d p, In (t, d, p) data -> existsb (same_key t d) rows = true) ->
  for_each data (fun '(t, d, p) => insert_or_ignore t d p) (Some rows) =
    (inr tt, Some rows).
Proof.
  induction 1 as [|[[t d] p] data [Ht Hd] _ IH]; intros Hall.
  - reflexivity.
  - assert (Hrun1 : insert_or_ignore t d p (Some rows) = (inr tt, Some rows)).
    { apply insert_or_ignore_present; auto. apply (Hall t d p). now left. }
    rewrite (for_each_cons (t, d, p) data
               (fun '(t, d, p) => insert_or_ignore t d p) _ _ Hrun1).
    apply IH. intros t' d' p' Hin. apply (Hall t' d' p'). now right.
Qed.

Lemma sample_data_encodable :
  Forall (fun '(t, d, _) => encodable t = true /\ encodable d = true)
    sample_data.
Proof. unfold sample_data. repeat constructor. Qed.

Lemma sample_data_numbers :
  Forall (fun '(_, _, p) => PrimFloat.is_nan p = false) sample_data.
Proof. unfold sample_data. repeat constructor. Qed.

Lemma sample_data_stored (t d : str) (p : float) :
  In (t, d, p) sample_data ->
  stored_real p = p /\ encodable t = true /\ encodable d = true.
Proof.
  unfold sample_data. simpl.
  intros H.
  repeat (destruct H as [[= <- <- <-]|H]; [repeat split; reflexivity|]).
  destruct H.
Qed.

Lemma init_db_run (db : database) :
  init_db db =
  for_each sample_data (fun '(t, d, p) => insert_or_ignore t d p)
    (Some (rows_of db)).
Proof. reflexivity. Qed.

(** X1. [init_db] only appends: it creates the table when the database has
    none, the rows of the table stay as and where they are, and each row it
    adds is a sample observation under a (ticker, date) the table did not
    have. *)
Theorem init_db_appends_missing_samples (db : database) :
  exists added,
    init_db db = (inr tt, Some (rows_of db ++ added)) /\
    Forall (fun r =>
              In (ticker r, date r, price r) sample_data /\
              price_at (ticker r) (date r) db = None) added.
Proof.
  rewrite init_db_run.
  destruct (seed_extends sample_data sample_data_encodable (rows_of db))
    as (added & Hrun & Hadded).
  exists added. split; [exact Hrun|].
  eapply Forall_impl; [|exact Hadded].
  intros r (t & d & p & Hin & -> & Hex). simpl.
  destruct (sample_data_stored t d p Hin) as (-> & Ht & Hd).
  split; [exact Hin|].
  unfold price_at. rewrite Ht, Hd. simpl.
  destruct (find (same_key t d) (rows_of db)) as [r|] eqn:Hf; [|reflexivity].
  apply find_some in Hf. destruct Hf as [Hr Hk].
  assert (existsb (same_key t d) (rows_of db) = true)
    by (apply existsb_exists; now exists r).
  congruence.
Qed.

Lemma init_db_table (db : database) : snd (init_db db) <> None.
Proof.
  rewrite init_db_run.
  destruct (seed_extends sample_data sample_data_encodable (rows_of db))
    as (added & -> & _).
  discriminate.
Qed.

Lemma init_db_present (db : database) (t d : str) (p : float) :
  In (t, d, p) sample_data ->
  existsb (same_key t d) (rows_of (snd (init_db db))) = true.
Proof.
  rewrite init_db_run.
  apply (seed_present sample_data sample_data_encodable sample_data_numbers).
Qed.

(** X2. Running [init_db] again changes nothing: whatever the database was,
    a second run returns normally with the database of the first. *)
Theorem init_db_idempotent (db : database) :
  init_db (snd (init_db db)) = (inr tt, snd (init_db db)).
Proof.
  pose proof (init_db_present db) as Hpresent.
  pose proof (init_db_table db) as Htable.
  destruct (snd (init_db db)) as [rows|]; [|congruence].
  rewrite init_db_run. cbn [rows_of] in *.
  apply seed_noop; [exact sample_data_encodable | exact Hpresent].
Qed.

Lemma present_row (t d : str) (rows : table) :
  existsb (same_key t d) rows = true ->
  In d (map date (where_ticker t rows)).
Proof.
  intros Hex. apply existsb_exists in Hex as (r & Hr & Hk).
  apply same_key_true in Hk. injection Hk as Ht Hd.
  apply in_map_iff. exists r. split; [exact Hd|].
  apply filter_In. split; [exact Hr|]. now apply str_eqb_eq.
Qed.

Lemma dates_present_count (t : str) (dates : list str) (rows : table) :
  NoDup dates ->
  (forall d, In d dates -> existsb (same_key t d) rows = true) ->
  (List.length dates <= List.length (where_ticker t rows))%nat.
Proof.
  intros Hnd Hall. rewrite <- (length_map date (where_ticker t rows)).
  apply NoDup_incl_length; [exact Hnd|].
  intros d Hd. now apply present_row, Hall.
Qed.

(** X3. After [init_db], on whatever database it ran, each of the three
    sample tickers has a forecast under any spelling: [predict_stock_price]
    returns the prediction dictionary, never an error one. *)
Theorem sample_tickers_predictable (impl : Py.summation) (db : database)
    (spelling : str) :
  In (upper spelling) [lit "AAPL"; lit "GOOGL"; lit "TSLA"] ->
  exists p h m method confidence,
    predict_stock_price impl spelling (snd (init_db db)) =
    (inr (Prediction (upper spelling) p h m method confidence),
     snd (init_db db)).
Proof.
  intros Hin.
  assert (Henc : encodable (upper spelling) = true).
  { simpl in Hin. destruct Hin as [<-|[<-|[<-|[]]]]; reflexivity. }
  assert (Hq : query_failure (upper spelling) (snd (init_db db)) = None).
  { unfold query_failure. pose proof (init_db_table db) as Ht.
    destruct (snd (init_db db)); [|congruence]. now rewrite Henc. }
  rewrite predict_stock_price_run, Hq.
  set (prices := map price _).
  assert (Hlen : (3 <= List.length prices)%nat).
  { subst prices. rewrite recent_prices_length.
    assert (H3 : (3 <= List.length
                         (where_ticker (upper spelling)
                            (rows_of (snd (init_db db)))))%nat).
    { apply (dates_present_count _
               [lit "2024-10-01"; lit "2024-10-02"; lit "2024-10-03"]).
      - repeat constructor; simpl; intuition discriminate.
      - intros d Hd.
        assert (Hsample : exists p, In (upper spelling, d, p) sample_data).
        { unfold sample_data. simpl in Hin, Hd |- *.
          destruct Hin as [<-|[<-|[<-|[]]]];
            destruct Hd as [<-|[<-|[<-|[]]]]; eexists; intuition eauto. }
        destruct Hsample as (p & Hp).
        exact (init_db_present db _ _ _ Hp). }
    destruct (Nat.min_spec 3 (List.length
        (where_ticker (upper spelling) (rows_of (snd (init_db db))))))
      as [[_ ->]|[_ ->]]; lia. }
  destruct (prediction_of_enough impl spelling prices Hlen) as (p & m & ->).
  eauto 10.
Qed.

Lemma sample_tickers_predictable_witness :
  exists p h m method confidence,
    predict_stock_price Py.LeftToRight (lit "googl")
      (snd (init_db (Some [mkRow (lit "GOOGL") (lit "2024-10-02") 1.5]))) =
    (inr (Prediction (upper (lit "googl")) p h m method confidence),
     snd (init_db (Some [mkRow (lit "GOOGL") (lit "2024-10-02") 1.5]))).
Proof.
  apply (sample_tickers_predictable Py.LeftToRight
           (Some [mkRow (lit "GOOGL") (lit "2024-10-02") 1.5]) (lit "googl")).
  right. left. reflexivity.
Defined.

(** ** [add_stock_price] *)

Lemma filter_idempotent {A} (f : A -> bool) (l : list A) :
  filter f (filter f l) = filter f l.
Proof.
  induction l as [|x l IH]; simpl; [reflexivity|].
  destruct (f x) eqn:Hx; simpl; [rewrite Hx, IH|]; auto.
Qed.

Lemma add_stock_price_typed_store (conv : conversions) (t d : str) (p : float)
    (db : database) :
  snd (add_stock_price conv (price_request t d p) db) =
  match db with
  | None => None
  | Some rows =>
      if encodable t && encodable d && negb (PrimFloat.is_nan p)
      then Some (filter (fun r => negb (same_key (upper t) d r)) rows
                   ++ [mkRow (upper t) d (stored_real p)])
      else db
  end.
Proof.
  rewrite add_stock_price_typed. destruct db as [rows|]; [|reflexivity].
  destruct (encodable t), (encodable d), (PrimFloat.is_nan p); reflexivity.
Qed.

(** X4. The last write wins: a request with two strings and a price that is
    a number leaves the same database whether or not another request for
    the same date and the same ticker (under any spelling) came before it.
    In particular a repeated request changes nothing more. *)
Theorem add_stock_price_last_wins (conv : conversions) (t t' d : str)
    (p q : float) (db : database) :
  upper t' = upper t ->
  PrimFloat.is_nan q = false ->
  snd (add_stock_price conv (price_request t d q)
         (snd (add_stock_price conv (price_request t' d p) db))) =
  snd (add_stock_price conv (price_request t d q) db).
Proof.
  intros Ht Hq.
  assert (Henc : encodable t' = encodable t)
    by (rewrite <- (upper_encodable t'), Ht; apply upper_encodable).
  rewrite !add_stock_price_typed_store, Hq, Ht, Henc.
  destruct db as [rows|]; [|reflexivity].
  destruct (encodable t); [|reflexivity].
  destruct (encodable d); [|reflexivity].
  destruct (PrimFloat.is_nan p); [reflexivity|]. cbn [andb negb].
  rewrite filter_app, filter_idempotent. simpl.
  rewrite same_key_refl. simpl. now rewrite app_nil_r.
Qed.

Lemma add_stock_price_last_wins_witness :
  snd (add_stock_price no_conversions
         (price_request (lit "AAPL") (lit "2024-10-05") 153.5)
         (snd (add_stock_price no_conversions
                 (price_request (lit "aapl") (lit "2024-10-05") 149.0)
                 seeded))) =
  snd (add_stock_price no_conversions
         (price_request (lit "AAPL") (lit "2024-10-05") 153.5) seeded).
Proof.
  apply (add_stock_price_last_wins no_conversions (lit "AAPL") (lit "aapl")
           (lit "2024-10-05") 149.0 153.5 seeded); reflexivity.
Defined.

(** What a request does, whatever its body: it is answered with an error
    and the database stays as it was, or it is answered with success and
    the row it names has replaced the row of its key. *)
Lemma add_stock_price_cases (conv : conversions) (body : exn + value)
    (db : database) :
  (snd (add_stock_price conv body db) = db /\
   forall msg, fst (add_stock_price conv body db) <> inr (Added msg)) \/
  exists rows t d p,
    db = Some rows /\
    request_ticker body = Some t /\ request_date conv body = Some d /\
    request_price conv body = Some p /\
    PrimFloat.is_nan p = false /\ encodable t = true /\
    add_stock_price conv body db =
      (inr (Added (lit "Stock price added successfully")),
       Some (filter (fun r => negb (same_key t d r)) rows
               ++ [mkRow t d (stored_real p)])).
Proof.
  remember (add_stock_price conv body db) as result eqn:Hres.
  unfold add_stock_price, try_except in Hres.
  unfold bind at 1, eval at 1 in Hres.
  destruct body as [e|data];
    [left; subst result; split; [reflexivity | intros ?; discriminate]|].
  unfold bind at 1, eval at 1 in Hres.
  destruct (all_in data _) as [e|[|]];
    [left; subst result; split; [reflexivity | intros ?; discriminate]|
    |left; subst result; split; [reflexivity | intros ?; discriminate]].
  cbn [negb] in Hres. unfold bind at 1, eval at 1 in Hres.
  destruct (getitem data (lit "ticker")) as [e|ticker_field] eqn:Hticker;
    [left; subst result; split; [reflexivity | intros ?; discriminate]|].
  unfold bind at 1, eval at 1 in Hres.
  destruct (call_upper ticker_field) as [e|ticker] eqn:Hupper;
    [left; subst result; split; [reflexivity | intros ?; discriminate]|].
  unfold bind at 1, eval at 1 in Hres.
  destruct (getitem data (lit "date")) as [e|date] eqn:Hdate;
    [left; subst result; split; [reflexivity | intros ?; discriminate]|].
  unfold bind at 1, eval at 1 in Hres.
  destruct (getitem data (lit "price")) as [e|price_field] eqn:Hprice;
    [left; subst result; split; [reflexivity | intros ?; discriminate]|].
  unfold bind at 1, eval at 1 in Hres.
  destruct (float_of conv price_field) as [e|price] eqn:Hfloat;
    [left; subst result; split; [reflexivity | intros ?; discriminate]|].
  unfold bind at 1 in Hres.
  unfold insert_or_replace, prepare, bind, eval, ret, write, raise in Hres.
  destruct db as [rows|];
    [|left; subst result; split; [reflexivity | intros ?; discriminate]].
  unfold bind_text in Hres.
  destruct (encodable ticker) eqn:Henc;
    [|left; subst result; split; [reflexivity | intros ?; discriminate]].
  destruct (bind_as_text conv 2 date) as [e|[d|]] eqn:Htext;
    [left; subst result; split; [reflexivity | intros ?; discriminate]|
    |left; subst result; split; [reflexivity | intros ?; discriminate]].
  unfold bind_real in Hres.
  destruct (PrimFloat.is_nan price) eqn:Hnan;
    [left; subst result; split; [reflexivity | intros ?; discriminate]|].
  right. exists rows, ticker, d, price.
  unfold request_ticker, request_date, request_price.
  rewrite Hticker, Hupper, Hdate, Htext, Hprice, Hfloat.
  subst result. repeat split; auto.
Qed.

Lemma add_stock_price_added (conv : conversions) (body : exn + value)
    (db db' : database) (msg : str) :
  add_stock_price conv body db = (inr (Added msg), db') ->
  exists rows t d p,
    db = Some rows /\
    request_key conv body = Some (t, d) /\
    request_ticker body = Some t /\
    request_price conv body = Some p /\
    PrimFloat.is_nan p = false /\ encodable t = true /\
    db' = Some (filter (fun r => negb (same_key t d r)) rows
                  ++ [mkRow t d (stored_real p)]).
Proof.
  intros Hrun.
  destruct (add_stock_price_cases conv body db)
    as [[_ Hno]|(rows & t & d & p & Hdb & Ht & Hd & Hp & Hnan & Henc & Hadd)].
  - rewrite Hrun in Hno. now destruct (Hno msg).
  - exists rows, t, d, p. unfold request_key. rewrite Ht, Hd.
    repeat split; auto. congruence.
Qed.

Lemma add_stock_price_store (conv : conversions) (body : exn + value)
    (db : database) :
  snd (add_stock_price conv body db) = db \/
  exists rows t d p,
    db = Some rows /\
    request_key conv body = Some (t, d) /\
    request_ticker body = Some t /\
    snd (add_stock_price conv body db) =
      Some (filter (fun r => negb (same_key t d r)) rows ++ [mkRow t d p]).
Proof.
  destruct (add_stock_price_cases conv body db)
    as [[Hsame _]|(rows & t & d & p & Hdb & Ht & Hd & Hp & Hnan & Henc & Hadd)].
  - now left.
  - right. exists rows, t, d, (stored_real p). unfold request_key.
    rewrite Ht, Hd, Hadd. auto.
Qed.

Lemma find_other_key (t d t' d' : str) (r : row) (rows : table) :
  (t', d') <> (t, d) -> key r = (t, d) ->
  find (same_key t' d')
    (filter (fun x => negb (same_key t d x)) rows ++ [r]) =
  find (same_key t' d') rows.
Proof.
  intros Hne Hr.
  assert (Hnr : same_key t' d' r = false).
  { destruct (same_key t' d' r) eqn:Hk; [|reflexivity].
    apply same_key_true in Hk. congruence. }
  induction rows as [|x rows IH]; simpl.
  - now rewrite Hnr.
  - destruct (same_key t' d' x) eqn:Hx.
    + assert (Hx' : same_key t d x = false).
      { destruct (same_key t d x) eqn:Hk; [|reflexivity].
        apply same_key_true in Hk, Hx. congruence. }
      rewrite Hx'. simpl. now rewrite Hx.
    + destruct (same_key t d x); simpl; [exact IH|]. now rewrite Hx.
Qed.

(** X5. A request touches one key only, whatever its body and whether it is
    answered with success or an error: every (ticker, date) other than the
    upper-cased ticker and the stored date of the request keeps the price
    it had, or stays absent. *)
Theorem add_stock_price_other_keys (conv : conversions) (body : exn + value)
    (t' d' : str) (db : database) :
  request_key conv body <> Some (t', d') ->
  price_at t' d' (snd (add_stock_price conv body db)) = price_at t' d' db.
Proof.
  intros Hne.
  destruct (add_stock_price_store conv body db)
    as [->|(rows & t & d & p & -> & Hkey & _ & ->)]; [reflexivity|].
  unfold price_at. cbn [rows_of].
  rewrite (find_other_key t d t' d'); [reflexivity| |reflexivity].
  congruence.
Qed.

Lemma add_stock_price_other_keys_witness :
  price_at (lit "AAPL") (lit "2024-10-03")
    (snd (add_stock_price no_conversions
            (price_request (lit "aapl") (lit "2024-10-04") 99.5) seeded)) =
  price_at (lit "AAPL") (lit "2024-10-03") seeded.
Proof.
  apply (add_stock_price_other_keys no_conversions
           (price_request (lit "aapl") (lit "2024-10-04") 99.5)
           (lit "AAPL") (lit "2024-10-03") seeded).
  vm_compute. discriminate.
Defined.

Lemma where_ticker_removed_count (t d : str) (rows : table) :
  unique_keys rows ->
  (List.length (where_ticker t (filter (fun r => negb (same_key t d r)) rows))
   + (if existsb (same_key t d) rows then 1 else 0)
   = List.length (where_ticker t rows))%nat.
Proof.
  unfold unique_keys, where_ticker.
  induction rows as [|x rows IH]; simpl; intros Hnd; [reflexivity|].
  inversion Hnd as [|? ? Hnin Hnd']; subst. specialize (IH Hnd').
  destruct (same_key t d x) eqn:Hx; simpl.
  - assert (Hkx : key x = (t, d)) by now apply same_key_true.
    assert (Hex : existsb (same_key t d) rows = false).
    { destruct (existsb (same_key t d) rows) eqn:Hex; [|reflexivity].
      apply existsb_same_key in Hex. congruence. }
    rewrite Hex in IH.
    injection Hkx as Ht _. apply str_eqb_eq in Ht. rewrite Ht. simpl. lia.
  - destruct (str_eqb (ticker x) t); simpl; lia.
Qed.

(** X6. On a database without duplicate keys, a request answered with
    success gives its ticker one more observation when its (ticker, date)
    is new, and the same number of observations when it replaces one. *)
Theorem add_stock_price_count (conv : conversions) (body : exn + value)
    (msg : str) (db db' : database) :
  NoDup (map (fun r => (ticker r, date r)) (rows_of db)) ->
  add_stock_price conv body db = (inr (Added msg), db') ->
  exists t d,
    request_key conv body = Some (t, d) /\
    List.length (observations t db') =
      if existsb (same_key t d) (rows_of db)
      then List.length (observations t db)
      else S (List.length (observations t db)).
Proof.
  intros Hnd Hrun.
  destruct (add_stock_price_added conv body db db' msg Hrun)
    as (rows & t & d & p & -> & Hkey & _ & _ & _ & Henc & ->).
  exists t, d. split; [exact Hkey|].
  unfold observations. rewrite Henc. cbn [rows_of] in *.
  pose proof (where_ticker_removed_count t d rows Hnd) as Hcount.
  unfold where_ticker at 1. rewrite filter_app, length_app. simpl.
  rewrite str_eqb_refl. simpl.
  fold (where_ticker t (filter (fun r => negb (same_key t d r)) rows)).
  destruct (existsb (same_key t d) rows); lia.
Qed.

Lemma add_stock_price_count_witness :
  exists t d,
    request_key no_conversions
      (price_request (lit "tsla") (lit "2024-10-07") 251.0) = Some (t, d) /\
    List.length
      (observations t
         (Some (rows_of seeded
                  ++ [mkRow (lit "TSLA") (lit "2024-10-07") 251.0]))) =
      if existsb (same_key t d) (rows_of seeded)
      then List.length (observations t seeded)
      else S (List.length (observations t seeded)).
Proof.
  apply (add_stock_price_count no_conversions
           (price_request (lit "tsla") (lit "2024-10-07") 251.0)
           (lit "Stock price added successfully") seeded).
  - apply (init_db_invariant None). split; constructor.
  - vm_compute. reflexivity.
Defined.

Lemma where_ticker_other (t t' d : str) (r : row) (rows : table) :
  t' <> t -> ticker r = t ->
  where_ticker t' (filter (fun x => negb (same_key t d x)) rows ++ [r]) =
  where_ticker t' rows.
Proof.
  intros Hne Hr. unfold where_ticker. rewrite filter_app. simpl.
  replace (str_eqb (ticker r) t') with false
    by (symmetry; apply str_eqb_neq; congruence).
  rewrite app_nil_r.
  induction rows as [|x rows IH]; simpl; [reflexivity|].
  destruct (str_eqb (ticker x) t') eqn:Hx.
  - assert (Hk : same_key t d x = false).
    { unfold same_key. apply str_eqb_eq in Hx.
      replace (str_eqb (ticker x) t) with false; [reflexivity|].
      symmetry. apply str_eqb_neq. congruence. }
    rewrite Hk. simpl. now rewrite Hx, IH.
  - destruct (same_key t d x); simpl; [exact IH|]. now rewrite Hx.
Qed.

(** X7. A request leaves the answers for every other ticker as they were,
    whatever its body: the forecast and the historical listing of a ticker
    whose upper-case form is not the upper-cased ticker of the request are
    the same before and after. *)
Theorem add_stock_price_other_tickers (impl : Py.summation)
    (conv : conversions) (body : exn + value) (ticker : str)
    (days : option Z) (db : database) :
  request_ticker body <> Some (upper ticker) ->
  fst (predict_stock_price impl ticker (snd (add_stock_price conv body db))) =
    fst (predict_stock_price impl ticker db) /\
  fst (get_historical_data ticker days (snd (add_stock_price conv body db))) =
    fst (get_historical_data ticker days db).
Proof.
  intros Hne.
  destruct (add_stock_price_store conv body db)
    as [->|(rows & t & d & p & -> & _ & Ht & ->)]; [split; reflexivity|].
  assert (Hrows : recent_rows (upper ticker)
                    (Some (filter (fun r => negb (same_key t d r)) rows
                             ++ [mkRow t d p])) =
                  recent_rows (upper ticker) (Some rows)).
  { unfold recent_rows. cbn [rows_of].
    rewrite (where_ticker_other t (upper ticker) d); [reflexivity| |reflexivity].
    congruence. }
  split.
  - rewrite !predict_stock_price_run. cbn [fst query_failure]. now rewrite Hrows.
  - rewrite !get_historical_data_run. cbn [fst query_failure]. now rewrite Hrows.
Qed.

Lemma add_stock_price_other_tickers_witness :
  let db' := snd (add_stock_price no_conversions
                    (price_request (lit "tsla") (lit "2024-10-05") 260.0)
                    seeded) in
  fst (predict_stock_price Py.LeftToRight (lit "aapl") db') =
    fst (predict_stock_price Py.LeftToRight (lit "aapl") seeded) /\
  fst (get_historical_data (lit "aapl") None db') =
    fst (get_historical_data (lit "aapl") None seeded).
Proof.
  apply (add_stock_price_other_tickers Py.LeftToRight no_conversions
           (price_request (lit "tsla") (lit "2024-10-05") 260.0)
           (lit "aapl") None seeded).
  vm_compute. discriminate.
Defined.

(** ** What is written is what is read *)

Lemma request_ticker_upper (body : exn + value) (t : str) :
  request_ticker body = Some t -> upper t = t.
Proof.
  unfold request_ticker. destruct body as [e|data]; [discriminate|].
  destruct (getitem data (lit "ticker")) as [e|field]; [discriminate|].
  destruct field; try discriminate. cbn [call_upper].
  intros [= <-]. apply upper_idempotent.
Qed.

Lemma request_key_ticker (conv : conversions) (body : exn + value)
    (t d : str) :
  request_key conv body = Some (t, d) -> request_ticker body = Some t.
Proof.
  unfold request_key. destruct (request_ticker body); [|discriminate].
  destruct (request_date conv body); [|discriminate]. congruence.
Qed.

Lemma query_table (t : str) (rows : table) :
  encodable t = true -> query_failure t (Some rows) = None.
Proof. intros Henc. unfold query_failure. now rewrite Henc. Qed.

Lemma get_historical_data_all (ticker : str) (days : Z) (db : database) :
  query_failure (upper ticker) db = None ->
  - 2 ^ 63 <= days < 0 ->
  get_historical_data ticker (Some days) db =
  (inr (Historical (upper ticker)
          (map date_price (recent_rows (upper ticker) db))
          (List.length (map date_price (recent_rows (upper ticker) db)))),
   db).
Proof.
  intros Hq Hd. rewrite get_historical_data_in_range by (exact Hq || lia).
  now rewrite limit_negative by lia.
Qed.

Lemma filter_map_commute {A B} (f : B -> bool) (g : A -> B) (l : list A) :
  filter f (map g l) = map g (filter (fun x => f (g x)) l).
Proof.
  induction l as [|x l IH]; simpl; [reflexivity|].
  destruct (f (g x)); simpl; now rewrite IH.
Qed.

Lemma filter_permutation {A} (f : A -> bool) (l l' : list A) :
  Permutation l l' -> Permutation (filter f l) (filter f l').
Proof.
  induction 1 as [|x l l' _ IH|x y l|l l' l'' _ IH1 _ IH2]; simpl.
  - constructor.
  - destruct (f x); [now constructor | exact IH].
  - destruct (f x), (f y); try reflexivity. constructor.
  - now transitivity (filter f l').
Qed.

Lemma rows_of_key_replaced (t d : str) (r : row) (rows : table) :
  key r = (t, d) ->
  filter (same_key t d)
    (filter (fun x => negb (same_key t d x)) rows ++ [r]) = [r].
Proof.
  intros Hr. rewrite filter_app. simpl.
  rewrite (proj2 (same_key_true t d r) Hr).
  replace (filter (same_key t d) (filter _ rows)) with (@nil row);
    [reflexivity|].
  symmetry. induction rows as [|x rows IH]; simpl; [reflexivity|].
  destruct (same_key t d x) eqn:Hx; simpl; [exact IH|].
  now rewrite Hx.
Qed.

(** X8. What a request writes is what the historical route reads: after a
    request answered with success, the uncapped listing of its ticker
    (negative [days]) has one entry under the date of the request, and that
    entry carries its price (0.0 for a negative zero). *)
Theorem add_stock_price_then_historical (conv : conversions)
    (body : exn + value) (msg : str) (db db' : database) (days : Z) :
  add_stock_price conv body db = (inr (Added msg), db') ->
  - 2 ^ 63 <= days < 0 ->
  exists t d p data,
    request_key conv body = Some (t, d) /\
    request_price conv body = Some p /\
    get_historical_data t (Some days) db' =
      (inr (Historical t data (List.length data)), db') /\
    map snd (filter (fun x => str_eqb (fst x) d) data) = [stored_real p].
Proof.
  intros Hrun Hd.
  destruct (add_stock_price_added conv body db db' msg Hrun)
    as (rows & t & d & p & -> & Hkey & Ht & Hp & Hnan & Henc & ->).
  pose proof (request_ticker_upper body t Ht) as Hup.
  set (new := mkRow t d (stored_real p)).
  set (rows' := filter (fun r => negb (same_key t d r)) rows ++ [new]).
  exists t, d, p, (map date_price (recent_rows t (Some rows'))).
  split; [exact Hkey|]. split; [exact Hp|].
  split.
  - rewrite get_historical_data_all;
      [|rewrite Hup; now apply query_table | exact Hd].
    rewrite Hup. reflexivity.
  - rewrite filter_map_commute. cbn [date_price fst].
    assert (Hperm : Permutation
                      (filter (fun r => str_eqb (date r) d)
                         (recent_rows t (Some rows')))
                      [new]).
    { rewrite (filter_permutation _ _ _ (recent_rows_perm t (Some rows'))).
      cbn [rows_of]. unfold where_ticker.
      replace (filter (fun r => str_eqb (date r) d)
                 (filter (fun r => str_eqb (ticker r) t) rows'))
        with (filter (same_key t d) rows').
      - subst rows'. now rewrite rows_of_key_replaced.
      - clear. induction rows' as [|x l IH]; simpl; [reflexivity|].
        unfold same_key at 1.
        destruct (str_eqb (ticker x) t); simpl;
          [destruct (str_eqb (date x) d); now rewrite IH | exact IH]. }
    apply Permutation_sym, Permutation_length_1_inv in Hperm.
    rewrite Hperm. reflexivity.
Qed.

Lemma add_stock_price_then_historical_witness :
  let db' := snd (add_stock_price no_conversions
                    (price_request (lit "aapl") (lit "2024-10-04") 155.5)
                    seeded) in
  exists t d p data,
    request_key no_conversions
      (price_request (lit "aapl") (lit "2024-10-04") 155.5) = Some (t, d) /\
    request_price no_conversions
      (price_request (lit "aapl") (lit "2024-10-04") 155.5) = Some p /\
    get_historical_data t (Some (-1)) db' =
      (inr (Historical t data (List.length data)), db') /\
    map snd (filter (fun x => str_eqb (fst x) d) data) = [stored_real p].
Proof.
  apply (add_stock_price_then_historical no_conversions
           (price_request (lit "aapl") (lit "2024-10-04") 155.5)
           (lit "Stock price added successfully") seeded).
  - vm_compute. reflexivity.
  - vm_compute. split; congruence.
Defined.

(** ** The two read paths *)

Lemma get_historical_prices_cases (ticker : str) (days : Z) (db : database) :
  get_historical_prices ticker days db =
  (match query_failure (upper ticker) db with
   | Some e => inl e
   | None =>
       match bind_int days with
       | inl e => inl e
       | inr n => inr (map price (limit n (recent_rows (upper ticker) db)))
       end
   end, db).
Proof.
  unfold get_historical_prices, select_price, bind, ret.
  rewrite select_rows_run.
  destruct (query_failure (upper ticker) db); [reflexivity|].
  now destruct (bind_int days).
Qed.

(** X9. The forecast and the historical route read the same rows.  For
    every [days], when the historical route answers with a listing, the
    prices [get_historical_prices] returns are the prices of the listing in
    the same order, and when it answers with an error,
    [get_historical_prices] has raised the exception whose message the
    answer carries.  The historical_prices of a forecast are the prices of
    the listing for [days = 3], whose count is 3. *)
Theorem historical_prices_agree (impl : Py.summation) (ticker : str)
    (days : Z) (db : database) :
  match fst (get_historical_data ticker (Some days) db) with
  | inr (Historical t data count) =>
      fst (get_historical_prices ticker days db) = inr (map snd data)
  | inr (HistoricalError msg) =>
      exists e,
        fst (get_historical_prices ticker days db) = inl e /\
        msg = lit "Error fetching historical data: " ++ exn_message e
  | inl _ => False
  end /\
  (forall r h,
      fst (predict_stock_price impl ticker db) = inr r ->
      result_historical_prices r = Some h ->
      exists data,
        fst (get_historical_data ticker (Some 3) db) =
          inr (Historical (upper ticker) data 3) /\
        h = map snd data).
Proof.
  split.
  - rewrite get_historical_data_run, get_historical_prices_cases. cbn [fst].
    destruct (query_failure (upper ticker) db) as [e|]; [now exists e|].
    destruct (bind_int days) as [e|n]; [now exists e|].
    cbv zeta. now rewrite map_map.
  - intros r h. rewrite predict_stock_price_run. cbn [fst].
    rewrite get_historical_data_run. cbn [fst].
    destruct (query_failure (upper ticker) db) as [e|];
      [intros [= <-]; discriminate|].
    intros [= <-]. unfold prediction_of.
    destruct (List.length _ <? 3)%nat eqn:Hlen; [discriminate|].
    cbn [result_historical_prices]. intros [= <-].
    rewrite (bind_int_in_range 3 three_in_range). cbv zeta.
    rewrite limit_three.
    apply Nat.ltb_ge in Hlen. rewrite length_map in Hlen.
    assert (Hthree :
              List.length (firstn 3 (recent_rows (upper ticker) db)) = 3%nat).
    { pose proof (firstn_le_length 3 (recent_rows (upper ticker) db)) as Hle.
      cbn [firstn] in Hle, Hlen |- *. lia. }
    eexists. split.
    + rewrite length_map, Hthree. reflexivity.
    + now rewrite map_map.
Qed.

Lemma historical_prices_agree_witness :
  fst (get_historical_prices (lit "tsla") 2 seeded) =
    inr (map snd [ (lit "2024-10-04", 250.45%float);
                   (lit "2024-10-03", 242.15%float) ]) /\
  (forall r h,
      fst (predict_stock_price Py.LeftToRight (lit "tsla") seeded) = inr r ->
      result_historical_prices r = Some h ->
      exists data,
        fst (get_historical_data (lit "tsla") (Some 3) seeded) =
          inr (Historical (upper (lit "tsla")) data 3) /\
        h = map snd data).
Proof.
  exact (historical_prices_agree Py.LeftToRight (lit "tsla") 2 seeded).
Defined.

(** X10. A cap cuts the listing and does nothing else: whenever the
    historical route answers [days = -1] with a listing, it answers
    [0 <= days < 2^63] with the first [days] rows of that listing. *)
Theorem historical_cap_is_prefix (ticker : str) (days : Z) (db : database)
    (t : str) (all : list (str * float)) (count : nat) :
  0 <= days < 2 ^ 63 ->
  fst (get_historical_data ticker (Some (-1)) db) =
    inr (Historical t all count) ->
  get_historical_data ticker (Some days) db =
    (inr (Historical t (firstn (Z.to_nat days) all)
            (List.length (firstn (Z.to_nat days) all))), db).
Proof.
  intros Hd. rewrite !get_historical_data_run. cbn [fst].
  destruct (query_failure (upper ticker) db); [discriminate|].
  rewrite (bind_int_in_range (-1)) by (vm_compute; split; congruence).
  rewrite (bind_int_in_range days) by lia.
  cbv zeta. rewrite limit_negative by lia.
  rewrite limit_nonnegative by lia.
  intros H.
  assert (Hh : Historical (upper ticker)
                 (map date_price (recent_rows (upper ticker) db))
                 (List.length (map date_price (recent_rows (upper ticker) db)))
               = Historical t all count) by congruence.
  clear H. injection Hh as <- <- <-.
  now rewrite firstn_map.
Qed.

Lemma historical_cap_is_prefix_witness :
  get_historical_data (lit "googl") (Some 2) seeded =
    (inr (Historical (lit "GOOGL")
            (firstn (Z.to_nat 2)
               [ (lit "2024-10-04", 2790.30%float);
                 (lit "2024-10-03", 2765.75%float);
                 (lit "2024-10-02", 2780.25%float);
                 (lit "2024-10-01", 2750.50%float) ])
            (List.length
               (firstn (Z.to_nat 2)
                  [ (lit "2024-10-04", 2790.30%float);
                    (lit "2024-10-03", 2765.75%float);
                    (lit "2024-10-02", 2780.25%float);
                    (lit "2024-10-01", 2750.50%float) ]))), seeded).
Proof.
  apply (historical_cap_is_prefix (lit "googl") 2 seeded (lit "GOOGL") _ 4%nat).
  - vm_compute. split; congruence.
  - vm_compute. reflexivity.
Defined.

Lemma where_ticker_dates_nodup (t : str) (rows : table) :
  unique_keys rows -> NoDup (map date (where_ticker t rows)).
Proof.
  unfold unique_keys, where_ticker.
  induction rows as [|x rows IH]; simpl; intros Hnd; [constructor|].
  inversion Hnd as [|? ? Hnin Hnd']; subst.
  destruct (str_eqb (ticker x) t) eqn:Hx; [|auto].
  simpl. constructor; [|auto].
  intros Hin. apply Hnin.
  apply in_map_iff in Hin as (r & Hd & Hr).
  apply filter_In in Hr as [Hr Ht].
  apply str_eqb_eq in Hx, Ht.
  apply in_map_iff. exists r. split; [unfold key; congruence | exact Hr].
Qed.

Lemma strictly_descending (l : list row) :
  StronglySorted date_desc l -> NoDup (map date l) ->
  StronglySorted (fun a b => ltb b a = true) (map date l).
Proof.
  induction 1 as [|x l Hs IH Hall]; simpl; intros Hnd; [constructor|].
  inversion Hnd as [|? ? Hnin Hnd']; subst.
  constructor; [auto|].
  apply Forall_forall. intros d Hd.
  apply in_map_iff in Hd as (r & <- & Hr).
  apply leb_neq_ltb.
  - exact (proj1 (Forall_forall _ _) Hall r Hr).
  - intros Heq. apply Hnin. rewrite Heq. now apply in_map.
Qed.

Lemma StronglySorted_firstn {A} (R : A -> A -> Prop) (n : nat) (l : list A) :
  StronglySorted R l -> StronglySorted R (firstn n l).
Proof.
  intros Hs. revert n.
  induction Hs as [|x l Hs IH Hall]; intros [|n]; simpl; try constructor.
  - apply IH.
  - apply Forall_forall. intros y Hy.
    apply (proj1 (Forall_forall _ _) Hall).
    rewrite <- (firstn_skipn n l). apply in_or_app. now left.
Qed.

(** X11. On a database without duplicate keys the historical listing never
    shows a date twice: in every listing the route answers with, for any
    [days] or none, the dates come strictly descending. *)
Theorem historical_dates_strictly_descending (ticker : str)
    (days_arg : option Z) (db : database)
    (t : str) (data : list (str * float)) (count : nat) :
  NoDup (map (fun r => (Sqlite.ticker r, date r)) (rows_of db)) ->
  fst (get_historical_data ticker days_arg db) =
    inr (Historical t data count) ->
  StronglySorted (fun a b => ltb b a = true) (map fst data).
Proof.
  intros Hnd. rewrite get_historical_data_run. cbn [fst].
  destruct (query_failure (upper ticker) db); [discriminate|].
  destruct (bind_int _) as [e|n]; [discriminate|].
  cbv zeta. intros H.
  assert (Hh : Historical (upper ticker)
                 (map date_price (limit n (recent_rows (upper ticker) db)))
                 (List.length
                    (map date_price (limit n (recent_rows (upper ticker) db))))
               = Historical t data count) by congruence.
  clear H. injection Hh as <- <- <-.
  rewrite map_map. cbn [date_price fst].
  change (map (fun x : row => date x)) with (map date).
  assert (Hall : StronglySorted (fun a b => ltb b a = true)
                   (map date (recent_rows (upper ticker) db))).
  { apply strictly_descending; [apply recent_rows_sorted|].
    apply (Permutation_NoDup
             (l := map date (where_ticker (upper ticker) (rows_of db)))).
    - apply Permutation_map, Permutation_sym, recent_rows_perm.
    - now apply where_ticker_dates_nodup. }
  unfold limit. destruct (n <? 0)%Z; [exact Hall|].
  rewrite <- firstn_map. now apply StronglySorted_firstn.
Qed.

Lemma historical_dates_strictly_descending_witness :
  StronglySorted (fun a b => ltb b a = true)
    (map fst [ (lit "2024-10-04", 151.20%float);
               (lit "2024-10-03", 148.75%float);
               (lit "2024-10-02", 152.30%float) ]).
Proof.
  apply (historical_dates_strictly_descending (lit "aapl") (Some 3) seeded
           (lit "AAPL") _ 3%nat).
  - apply (init_db_invariant None). split; constructor.
  - vm_compute. reflexivity.
Defined.

(** ** [get_available_tickers] *)

Lemma insert_distinct_in (t t' : str) (l : list str) :
  In t' (insert_distinct t l) <-> t' = t \/ In t' l.
Proof.
  induction l as [|x l IH]; simpl.
  - intuition.
  - destruct (compare t x) eqn:Hc; simpl.
    + apply compare_eq in Hc. subst x. intuition.
    + intuition.
    + rewrite IH. intuition.
Qed.

Lemma insert_distinct_hd (a t : str) (l : list str) :
  ltb a t = true ->
  HdRel (fun x y => ltb x y = true) a l ->
  HdRel (fun x y => ltb x y = true) a (insert_distinct t l).
Proof.
  intros Hat Hal. destruct l as [|x l]; simpl.
  - now constructor.
  - destruct (compare t x);
      [exact Hal | now constructor | constructor; now inversion Hal].
Qed.

Lemma insert_distinct_sorted (t : str) (l : list str) :
  Sorted (fun x y => ltb x y = true) l ->
  Sorted (fun x y => ltb x y = true) (insert_distinct t l).
Proof.
  induction 1 as [|x l Hs IH Hhd]; simpl.
  - repeat constructor.
  - destruct (compare t x) eqn:Hc.
    + now constructor.
    + constructor; [now constructor|]. constructor.
      unfold ltb. now rewrite Hc.
    + constructor; [exact IH|].
      apply insert_distinct_hd; [now apply compare_gt_ltb | exact Hhd].
Qed.

Lemma distinct_tickers_strongly_sorted (l : list str) :
  StronglySorted (fun x y => ltb x y = true)
    (fold_right insert_distinct [] l).
Proof.
  apply Sorted_StronglySorted.
  - intros a b c. apply ltb_trans.
  - induction l as [|x l IH]; simpl; [constructor|].
    now apply insert_distinct_sorted.
Qed.

Lemma distinct_tickers_in (t : str) (l : list str) :
  In t (fold_right insert_distinct [] l) <-> In t l.
Proof.
  induction l as [|x l IH]; simpl; [tauto|].
  rewrite insert_distinct_in, IH. intuition.
Qed.

Lemma get_available_tickers_run (db : database) :
  get_available_tickers db =
  (inr match db with
       | Some rows =>
           Tickers (fold_right insert_distinct [] (map ticker rows))
             (List.length (fold_right insert_distinct [] (map ticker rows)))
       | None =>
           TickersError (lit "Error fetching tickers: "
                           ++ exn_message no_such_table)
       end, db).
Proof. now destruct db. Qed.

(** X12. The tickers route leaves the database alone.  On a database that
    has the table it lists exactly the tickers that have a row, each once,
    in strictly ascending order, with their number as [count]; on a
    database without the table it answers with the error of the missing
    table. *)
Theorem get_available_tickers_sorted_distinct (db : database) :
  match db with
  | Some rows =>
      exists tickers,
        get_available_tickers db =
          (inr (Tickers tickers (List.length tickers)), db) /\
        StronglySorted (fun x y => ltb x y = true) tickers /\
        NoDup tickers /\
        (forall t, In t tickers <-> exists r, In r rows /\ ticker r = t)
  | None =>
      get_available_tickers db =
        (inr (TickersError
                (lit "Error fetching tickers: no such table: stock_prices")),
         db)
  end.
Proof.
  rewrite get_available_tickers_run. destruct db as [rows|]; [|reflexivity].
  eexists. split; [reflexivity|].
  pose proof (distinct_tickers_strongly_sorted (map ticker rows)) as Hs.
  split; [exact Hs|]. split.
  - induction Hs as [|x l Hs IH Hall]; constructor; [|exact IH].
    intros Hin. apply (proj1 (Forall_forall _ _) Hall) in Hin.
    now rewrite ltb_irreflexive in Hin.
  - intros t. rewrite distinct_tickers_in, in_map_iff.
    split; intros (r & H1 & H2); exists r; auto.
Qed.

(** X13. Every ticker that gets a forecast is on the list of the tickers
    route, under the name the forecast carries. *)
Theorem predicted_ticker_is_listed (impl : Py.summation) (ticker : str)
    (db : database) (r : prediction_result) :
  fst (predict_stock_price impl ticker db) = inr r ->
  result_prediction r <> None ->
  exists tickers count,
    fst (get_available_tickers db) = inr (Tickers tickers count) /\
    In (result_ticker r) tickers.
Proof.
  rewrite predict_stock_price_run, get_available_tickers_run. cbn [fst].
  intros Hrun Hpred.
  destruct (query_failure (upper ticker) db) as [e|] eqn:Hq.
  { assert (Hr : r = prediction_failed ticker e) by congruence.
    subst r. now elim Hpred. }
  destruct (query_runs _ _ Hq) as (_ & _ & rows & ->).
  assert (Hr : r = prediction_of impl ticker
                     (map price (firstn 3 (recent_rows (upper ticker)
                                             (Some rows)))))
    by congruence.
  subst r. clear Hrun.
  eexists. eexists. split; [reflexivity|].
  apply distinct_tickers_in, in_map_iff.
  unfold prediction_of in *.
  destruct (List.length _ <? 3)%nat eqn:Hlen; [now elim Hpred|].
  cbn [result_ticker].
  apply Nat.ltb_ge in Hlen. rewrite recent_prices_length in Hlen.
  cbn [rows_of] in Hlen.
  destruct (where_ticker (upper ticker) rows) as [|x l] eqn:Hrows;
    [simpl in Hlen; lia|].
  assert (Hx : In x (where_ticker (upper ticker) rows))
    by (rewrite Hrows; now left).
  apply filter_In in Hx as [Hx Ht]. apply str_eqb_eq in Ht.
  now exists x.
Qed.

Lemma predicted_ticker_is_listed_witness :
  exists tickers count,
    fst (get_available_tickers seeded) = inr (Tickers tickers count) /\
    In (lit "TSLA") tickers.
Proof.
  apply (predicted_ticker_is_listed Py.LeftToRight (lit "tsla") seeded
           (Prediction (lit "TSLA") 248.0
              [250.45; 242.15; 248.90]%float 247.17
              (lit "Moving Average (3-day) with Trend Adjustment")
              (lit "Medium (Rule-based prediction)"))).
  - vm_compute. reflexivity.
  - discriminate.
Defined.

(** ** Routes together *)



(** X17. After a request answered with success, the tickers route lists the
    upper-cased ticker of the request. *)
Theorem added_ticker_is_listed (conv : conversions) (body : exn + value)
    (msg : str) (db db' : database) :
  add_stock_price conv body db = (inr (Added msg), db') ->
  exists t tickers,
    request_ticker body = Some t /\
    get_available_tickers db' =
      (inr (Tickers tickers (List.length tickers)), db') /\
    In t tickers.
Proof.
  intros Hrun.
  destruct (add_stock_price_added conv body db db' msg Hrun)
    as (rows & t & d & p & -> & _ & Ht & _ & _ & _ & ->).
  exists t. eexists. split; [exact Ht|].
  rewrite get_available_tickers_run. split; [reflexivity|].
  apply distinct_tickers_in, in_map_iff.
  exists (mkRow t d (stored_real p)). split; [reflexivity|].
  apply in_or_app. right. now left.
Qed.

Lemma added_ticker_is_listed_witness :
  let db' := snd (add_stock_price no_conversions
                    (price_request (lit "msft") (lit "2024-10-04") 416.5)
                    seeded) in
  exists t tickers,
    request_ticker (price_request (lit "msft") (lit "2024-10-04") 416.5)
      = Some t /\
    get_available_tickers db' =
      (inr (Tickers tickers (List.length tickers)), db') /\
    In t tickers.
Proof.
  apply (added_ticker_is_listed no_conversions
           (price_request (lit "msft") (lit "2024-10-04") 416.5)
           (lit "Stock price added successfully") seeded).
  vm_compute. reflexivity.
Defined.

Lemma replaced_present (t d : str) (r : row) (rows : table) :
  key r = (t, d) ->
  existsb (same_key t d)
    (filter (fun x => negb (same_key t d x)) rows ++ [r]) = true.
Proof.
  intros Hr. rewrite existsb_app. simpl.
  rewrite (proj2 (same_key_true t d r) Hr). now rewrite orb_true_r.
Qed.

Lemma replaced_keeps_present (t d t' d' : str) (r : row) (rows : table) :
  (t', d') <> (t, d) ->
  existsb (same_key t' d') rows = true ->
  existsb (same_key t' d')
    (filter (fun x => negb (same_key t d x)) rows ++ [r]) = true.
Proof.
  intros Hne Hex. rewrite existsb_app.
  apply orb_true_iff. left.
  apply existsb_exists in Hex as (x & Hx & Hk).
  apply existsb_exists. exists x. split; [|exact Hk].
  apply filter_In. split; [exact Hx|].
  destruct (same_key t d x) eqn:Hk'; [|reflexivity].
  apply same_key_true in Hk, Hk'. congruence.
Qed.

(** X18. Three requests make a ticker predictable: after three requests
    answered with success that name the same ticker and three different
    dates, [predict_stock_price] returns a prediction for that ticker,
    whatever the table held before. *)
Theorem three_prices_make_prediction (impl : Py.summation)
    (conv : conversions) (b1 b2 b3 : exn + value) (m1 m2 m3 : str)
    (db db1 db2 db3 : database) (t d1 d2 d3 : str) :
  add_stock_price conv b1 db = (inr (Added m1), db1) ->
  add_stock_price conv b2 db1 = (inr (Added m2), db2) ->
  add_stock_price conv b3 db2 = (inr (Added m3), db3) ->
  request_key conv b1 = Some (t, d1) ->
  request_key conv b2 = Some (t, d2) ->
  request_key conv b3 = Some (t, d3) ->
  d1 <> d2 -> d1 <> d3 -> d2 <> d3 ->
  exists p h m method confidence,
    predict_stock_price impl t db3 =
    (inr (Prediction t p h m method confidence), db3).
Proof.
  intros Hrun1 Hrun2 Hrun3 Hk1 Hk2 Hk3 H12 H13 H23.
  destruct (add_stock_price_added conv b1 db db1 m1 Hrun1)
    as (rows & t1 & e1 & p1 & -> & Hk1' & Ht & _ & _ & Henc & ->).
  destruct (add_stock_price_added conv b2 _ db2 m2 Hrun2)
    as (rows1 & t2 & e2 & p2 & [= <-] & Hk2' & _ & _ & _ & _ & ->).
  destruct (add_stock_price_added conv b3 _ db3 m3 Hrun3)
    as (rows2 & t3 & e3 & p3 & [= <-] & Hk3' & _ & _ & _ & _ & ->).
  assert (E1 : (t1, e1) = (t, d1)) by congruence.
  assert (E2 : (t2, e2) = (t, d2)) by congruence.
  assert (E3 : (t3, e3) = (t, d3)) by congruence.
  injection E1 as -> ->. injection E2 as -> ->. injection E3 as -> ->.
  pose proof (request_ticker_upper b1 t Ht) as Hup.
  set (rows3 := filter _ _ ++ [mkRow t d3 (stored_real p3)]).
  rewrite predict_stock_price_run, Hup. unfold query_failure. rewrite Henc.
  assert (Hlen : (3 <= List.length (where_ticker t rows3))%nat).
  { apply (dates_present_count _ [d1; d2; d3]).
    - repeat constructor; simpl; intuition congruence.
    - intros d [<-|[<-|[<-|[]]]]; subst rows3.
      + apply replaced_keeps_present; [congruence|].
        apply replaced_keeps_present; [congruence|].
        now apply replaced_present.
      + apply replaced_keeps_present; [congruence|].
        now apply replaced_present.
      + now apply replaced_present. }
  destruct (prediction_of_enough impl t
              (map price (firstn 3 (recent_rows t (Some rows3)))))
    as (p & m & Hpred).
  - rewrite recent_prices_length. cbn [rows_of].
    destruct (Nat.min_spec 3 (List.length (where_ticker t rows3)))
      as [[? ->]|[? ->]]; lia.
  - rewrite Hpred, Hup. eauto 10.
Qed.

Lemma three_prices_make_prediction_witness :
  let b1 := price_request (lit "Msft") (lit "2024-10-01") 420.7 in
  let b2 := price_request (lit "msft") (lit "2024-10-02") 417.1 in
  let b3 := price_request (lit "MSFT") (lit "2024-10-03") 416.5 in
  let db1 := snd (add_stock_price no_conversions b1 seeded) in
  let db2 := snd (add_stock_price no_conversions b2 db1) in
  let db3 := snd (add_stock_price no_conversions b3 db2) in
  exists p h m method confidence,
    predict_stock_price Py.LeftToRight (lit "MSFT") db3 =
    (inr (Prediction (lit "MSFT") p h m method confidence), db3).
Proof.
  intros b1 b2 b3 db1 db2 db3.
  apply (three_prices_make_prediction Py.LeftToRight no_conversions
           b1 b2 b3
           (lit "Stock price added successfully")
           (lit "Stock price added successfully")
           (lit "Stock price added successfully")
           seeded db1 db2 db3
           (lit "MSFT") (lit "2024-10-01") (lit "2024-10-02")
           (lit "2024-10-03"));
    solve [vm_compute; reflexivity | discriminate].
Defined.

Lemma order_newest_first (r : row) (l : list row) :
  (forall x, In x l -> ltb (date x) (date r) = true) ->
  order_by_date_desc (l ++ [r]) = r :: order_by_date_desc l.
Proof.
  unfold order_by_date_desc. rewrite fold_right_app. simpl.
  induction l as [|x l IH]; simpl; intros Hall; [reflexivity|].
  rewrite IH by (intros y Hy; apply Hall; now right). simpl.
  now rewrite (ltb_not_leb _ _ (Hall x (or_introl eq_refl))).
Qed.

Lemma where_ticker_new_date (t d : str) (rows : table) :
  (forall x, In x (where_ticker t rows) -> ltb (date x) d = true) ->
  where_ticker t (filter (fun r => negb (same_key t d r)) rows) =
  where_ticker t rows.
Proof.
  unfold where_ticker.
  induction rows as [|x rows IH]; simpl; intros Hall; [reflexivity|].
  destruct (str_eqb (ticker x) t) eqn:Hx.
  - assert (Hk : same_key t d x = false).
    { unfold same_key. rewrite Hx. simpl. apply str_eqb_neq.
      intros Hd. specialize (Hall x (or_introl eq_refl)).
      rewrite Hd, ltb_irreflexive in Hall. discriminate. }
    rewrite Hk. simpl. rewrite Hx. f_equal.
    apply IH. intros y Hy. apply Hall. now right.
  - destruct (same_key t d x); simpl; [|rewrite Hx]; now apply IH.
Qed.

(** X20. The newest observation leads: when a request answered with success
    names a date after every date its ticker has, the uncapped historical
    listing afterwards is the new (date, price) followed by the listing
    before, and [get_historical_prices] with [days = 3] returns the new
    price followed by the two most recent prices of before. *)
Theorem newest_price_leads (conv : conversions) (body : exn + value)
    (msg : str) (db db' : database) (days : Z) (t d : str) (p : float) :
  add_stock_price conv body db = (inr (Added msg), db') ->
  request_key conv body = Some (t, d) ->
  request_price conv body = Some p ->
  (forall r, In r (observations t db) -> ltb (date r) d = true) ->
  - 2 ^ 63 <= days < 0 ->
  exists before,
    get_historical_data t (Some days) db =
      (inr (Historical t before (List.length before)), db) /\
    get_historical_data t (Some days) db' =
      (inr (Historical t ((d, stored_real p) :: before)
              (S (List.length before))), db') /\
    get_historical_prices t 3 db' =
      (inr (stored_real p :: firstn 2 (map snd before)), db').
Proof.
  intros Hrun Hkey Hprice Hnew Hd.
  destruct (add_stock_price_added conv body db db' msg Hrun)
    as (rows & t0 & d0 & p0 & -> & Hkey' & Ht & Hp & _ & Henc & ->).
  assert (E : (t0, d0) = (t, d)) by congruence. injection E as -> ->.
  assert (E : p0 = p) by congruence. subst p0.
  pose proof (request_ticker_upper body t Ht) as Hup.
  unfold observations in Hnew. rewrite Henc in Hnew. cbn [rows_of] in Hnew.
  set (rows' := filter _ rows ++ [mkRow t d (stored_real p)]).
  assert (Hrows : recent_rows t (Some rows') =
                  mkRow t d (stored_real p) :: recent_rows t (Some rows)).
  { subst rows'. unfold recent_rows. cbn [rows_of].
    unfold where_ticker at 1. rewrite filter_app. simpl.
    rewrite str_eqb_refl.
    fold (where_ticker t (filter (fun r => negb (same_key t d r)) rows)).
    rewrite (where_ticker_new_date _ _ _ Hnew).
    now apply order_newest_first. }
  exists (map date_price (recent_rows t (Some rows))).
  rewrite !get_historical_data_all
    by (exact Hd || (rewrite Hup; now apply query_table)).
  rewrite get_historical_prices_run;
    [|rewrite Hup; now apply query_table | exact three_in_range].
  rewrite Hup, Hrows. split; [reflexivity|]. split; [reflexivity|].
  rewrite limit_three.
  rewrite map_map. cbn [firstn map price date_price snd].
  now destruct (recent_rows t (Some rows)) as [|a [|b l]].
Qed.

Lemma newest_price_leads_witness :
  let body := price_request (lit "aapl") (lit "2024-10-07") 153.4 in
  let db' := snd (add_stock_price no_conversions body seeded) in
  exists before,
    get_historical_data (lit "AAPL") (Some (-1)) seeded =
      (inr (Historical (lit "AAPL") before (List.length before)), seeded) /\
    get_historical_data (lit "AAPL") (Some (-1)) db' =
      (inr (Historical (lit "AAPL")
              ((lit "2024-10-07", stored_real 153.4) :: before)
              (S (List.length before))), db') /\
    get_historical_prices (lit "AAPL") 3 db' =
      (inr (stored_real 153.4 :: firstn 2 (map snd before)), db').
Proof.
  intros body db'.
  apply (newest_price_leads no_conversions body
           (lit "Stock price added successfully") seeded db' (-1)
           (lit "AAPL") (lit "2024-10-07") 153.4).
  - vm_compute. reflexivity.
  - vm_compute. reflexivity.
  - vm_compute. reflexivity.
  - intros r Hr. vm_compute in Hr.
    repeat (destruct Hr as [<-|Hr]; [reflexivity|]). destruct Hr.
  - vm_compute. split; congruence.
Defined.

(** ** [predict], the route *)

(** A space is its own upper case, and the upper case of any other
    character is not empty and has no space. *)
Lemma upper_char_space (c : N) : is_space c = true -> upper_char c = [c].
Proof.
  intros Hc. unfold upper_char.
  destruct (find (fun e => (fst e =? c)%N) upper_table) as [[c' u]|] eqn:Hf;
    [|reflexivity].
  apply find_some in Hf as [Hin Heq]. simpl in Heq. apply N.eqb_eq in Heq.
  subst c'.
  pose proof (proj1 (forallb_forall _ _) upper_table_no_space _ Hin) as H.
  simpl in H. rewrite Hc in H. discriminate.
Qed.

Lemma upper_char_no_space (c : N) :
  is_space c = false ->
  forallb (fun x => negb (is_space x)) (upper_char c) = true /\
  upper_char c <> [].
Proof.
  intros Hc. unfold upper_char.
  destruct (find (fun e => (fst e =? c)%N) upper_table) as [[c' u]|] eqn:Hf.
  - apply find_some in Hf as [Hin _].
    pose proof (proj1 (forallb_forall _ _) upper_table_no_space _ Hin) as H.
    simpl in H. apply andb_true_iff in H as [H Hne].
    apply andb_true_iff in H as [_ H].
    split; [exact H|]. now destruct u.
  - simpl. rewrite Hc. split; [reflexivity | discriminate].
Qed.

Lemma upper_char_nonempty (c : N) : upper_char c <> [].
Proof.
  destruct (is_space c) eqn:Hc.
  - rewrite (upper_char_space c Hc). discriminate.
  - apply (upper_char_no_space c Hc).
Qed.

Lemma upper_empty (s : str) : upper s = [] <-> s = [].
Proof.
  split; [|now intros ->].
  destruct s as [|c s]; [reflexivity|]. simpl. intros H.
  apply app_eq_nil in H as [H _]. now apply upper_char_nonempty in H.
Qed.

Lemma lstrip_no_space (u s : str) :
  u <> [] -> forallb (fun x => negb (is_space x)) u = true ->
  lstrip (u ++ s) = u ++ s.
Proof.
  destruct u as [|x u]; [congruence|]. simpl. intros _ H.
  apply andb_true_iff in H as [H _]. apply negb_true_iff in H. now rewrite H.
Qed.

Lemma lstrip_upper (s : str) : lstrip (upper s) = upper (lstrip s).
Proof.
  induction s as [|c s IH]; [reflexivity|].
  cbn [upper flat_map lstrip]. destruct (is_space c) eqn:Hc.
  - rewrite (upper_char_space c Hc). simpl. now rewrite Hc.
  - destruct (upper_char_no_space c Hc) as [Hall Hne].
    now rewrite lstrip_no_space.
Qed.

Lemma rstrip_app (a b : str) :
  rstrip (a ++ b) =
  match rstrip b with
  | [] => rstrip a
  | r => a ++ r
  end.
Proof.
  induction a as [|x a IH]; cbn [app rstrip].
  - now destruct (rstrip b).
  - rewrite IH. destruct (rstrip b) as [|y r]; [reflexivity|].
    now destruct a.
Qed.

Lemma rstrip_no_space (u : str) :
  forallb (fun x => negb (is_space x)) u = true -> rstrip u = u.
Proof.
  induction u as [|x u IH]; [reflexivity|]. simpl. intros H.
  apply andb_true_iff in H as [Hx Hu]. apply negb_true_iff in Hx.
  rewrite (IH Hu). destruct u; [now rewrite Hx | reflexivity].
Qed.

Lemma rstrip_upper (s : str) : rstrip (upper s) = upper (rstrip s).
Proof.
  induction s as [|c s IH]; [reflexivity|].
  change (upper (c :: s)) with (upper_char c ++ upper s).
  rewrite rstrip_app, IH. cbn [rstrip].
  destruct (rstrip s) as [|y r].
  - change (upper []) with (@nil N). cbv iota.
    destruct (is_space c) eqn:Hc.
    + rewrite (upper_char_space c Hc). simpl. now rewrite Hc.
    + rewrite rstrip_no_space by apply (upper_char_no_space c Hc).
      change (upper [c]) with (upper_char c ++ []). now rewrite app_nil_r.
  - assert (Hne : upper (y :: r) <> [])
      by (rewrite upper_empty; discriminate).
    change (upper (c :: y :: r)) with (upper_char c ++ upper (y :: r)).
    destruct (upper (y :: r)); [congruence | reflexivity].
Qed.

Lemma strip_upper (s : str) : strip (upper s) = upper (strip s).
Proof. unfold strip. now rewrite lstrip_upper, rstrip_upper. Qed.

Lemma rstrip_idempotent (s : str) : rstrip (rstrip s) = rstrip s.
Proof.
  induction s as [|c s IH]; simpl; [reflexivity|].
  destruct (rstrip s) as [|c' r] eqn:Hr.
  - destruct (is_space c) eqn:Hc; simpl; [reflexivity|]. now rewrite Hc.
  - change (rstrip (c :: c' :: r)) with
      match rstrip (c' :: r) with
      | [] => if is_space c then [] else [c]
      | x => c :: x
      end.
    now rewrite IH.
Qed.

(** What [lstrip] returns does not start with a space, and [rstrip] keeps a
    first character that is not a space. *)
Lemma lstrip_head (s : str) :
  match lstrip s with
  | [] => True
  | c :: _ => is_space c = false
  end.
Proof.
  induction s as [|c s IH]; simpl; [exact I|].
  destruct (is_space c) eqn:Hc; [exact IH | exact Hc].
Qed.

Lemma lstrip_rstrip_fixed (s : str) :
  match s with
  | [] => True
  | c :: _ => is_space c = false
  end ->
  lstrip (rstrip s) = rstrip s.
Proof.
  destruct s as [|c s]; simpl; [reflexivity|]. intros Hc.
  destruct (rstrip s); rewrite ?Hc; simpl; now rewrite Hc.
Qed.

Lemma strip_idempotent (s : str) : strip (strip s) = strip s.
Proof.
  unfold strip.
  rewrite (lstrip_rstrip_fixed (lstrip s) (lstrip_head s)).
  apply rstrip_idempotent.
Qed.

(** The route on a JSON object. *)
Lemma predict_dict (impl : Py.summation) (items : list (str * value))
    (db : database) :
  predict impl (inr (VDict items)) db =
  (inr match lookup (lit "ticker") items with
       | None => PredictBadRequest (lit "Missing ticker symbol")
       | Some (VStr raw) =>
           let ticker := upper (strip raw) in
           if str_eqb ticker [] then
             PredictBadRequest (lit "Invalid ticker symbol")
           else
             match query_failure ticker db with
             | Some e => PredictNotFound (prediction_failed ticker e)
             | None =>
                 let r := prediction_of impl ticker
                            (map price (firstn 3 (recent_rows ticker db))) in
                 match result_error r with
                 | Some _ => PredictNotFound r
                 | None => PredictOk r
                 end
             end
       | Some field =>
           PredictInternalError
             (lit "Internal server error: "
                ++ exn_message (no_attribute field (lit "strip")))
       end, db).
Proof.
  unfold predict, try_except.
  unfold bind at 1, eval at 1. unfold bind at 1.
  destruct items as [|item items]; [reflexivity|].
  cbn [truthy]. unfold eval at 1, contains, getitem.
  set (items' := item :: items).
  destruct (lookup (lit "ticker") items') as [field|]; [|reflexivity].
  cbn [negb]. unfold bind at 1, eval at 1. unfold bind at 1, eval at 1.
  destruct field; try reflexivity.
  cbn [call_strip]. cbv zeta.
  destruct (str_eqb (upper (strip s)) []); [reflexivity|].
  unfold bind, ret.
  rewrite predict_stock_price_run, upper_idempotent.
  destruct (query_failure (upper (strip s)) db); [reflexivity|].
  now destruct (result_error _).
Qed.





(** X15. The predict route does not see case or surrounding whitespace: a
    JSON object whose ticker field is a string and one whose ticker field
    is that string stripped and upper-cased get the same answer. *)
Theorem predict_route_normalises (impl : Py.summation)
    (items items' : list (str * value)) (raw : str) (db : database) :
  lookup (lit "ticker") items = Some (VStr raw) ->
  lookup (lit "ticker") items' = Some (VStr (upper (strip raw))) ->
  predict impl (inr (VDict items)) db = predict impl (inr (VDict items')) db.
Proof.
  intros H H'. rewrite !predict_dict, H, H'.
  now rewrite strip_upper, strip_idempotent, upper_idempotent.
Qed.

Lemma predict_route_normalises_witness :
  predict Py.LeftToRight
    (ticker_request ([160%N] ++ lit " t" ++ [383%N] ++ lit "la" ++ [8195%N]))
    seeded =
  predict Py.LeftToRight (ticker_request (lit "TSLA")) seeded.
Proof.
  apply (predict_route_normalises Py.LeftToRight
           [(lit "ticker",
             VStr ([160%N] ++ lit " t" ++ [383%N] ++ lit "la" ++ [8195%N]))]
           [(lit "ticker", VStr (lit "TSLA"))]
           ([160%N] ++ lit " t" ++ [383%N] ++ lit "la" ++ [8195%N]) seeded);
    reflexivity.
Defined.

(** X19. The historical route and the add-price route take a ticker in any
    case: a spelling and its upper-case form get the same answer and leave
    the same database, for the historical route with any [days] and for the
    add-price route with any date and price fields. *)
Theorem routes_case_insensitive (conv : conversions) (t : str)
    (days : option Z) (items items' : list (str * value)) (db : database) :
  get_historical_data t days db = get_historical_data (upper t) days db /\
  (lookup (lit "ticker") items = Some (VStr t) ->
   lookup (lit "ticker") items' = Some (VStr (upper t)) ->
   lookup (lit "date") items' = lookup (lit "date") items ->
   lookup (lit "price") items' = lookup (lit "price") items ->
   add_stock_price conv (inr (VDict items)) db =
   add_stock_price conv (inr (VDict items')) db).
Proof.
  split.
  - unfold get_historical_data. now rewrite upper_idempotent.
  - intros Ht Ht' Hd Hp.
    unfold add_stock_price, try_except, bind, eval.
    cbn [all_in contains getitem].
    rewrite Ht, Ht', Hd, Hp. cbn [call_upper].
    now rewrite upper_idempotent.
Qed.

Lemma routes_case_insensitive_witness :
  get_historical_data (lit "Tsla") (Some 2) seeded =
    get_historical_data (upper (lit "Tsla")) (Some 2) seeded /\
  add_stock_price no_conversions
    (price_request (lit "Tsla") (lit "2024-10-07") 251.5) seeded =
  add_stock_price no_conversions
    (price_request (upper (lit "Tsla")) (lit "2024-10-07") 251.5) seeded.
Proof.
  destruct (routes_case_insensitive no_conversions (lit "Tsla") (Some 2)
              [ (lit "ticker", VStr (lit "Tsla"));
                (lit "date", VStr (lit "2024-10-07"));
                (lit "price", VFloat 251.5) ]
              [ (lit "ticker", VStr (upper (lit "Tsla")));
                (lit "date", VStr (lit "2024-10-07"));
                (lit "price", VFloat 251.5) ]
              seeded) as [Hread Hwrite].
  split; [exact Hread|].
  apply Hwrite; reflexivity.
Defined.
